(** * spicelib: the LTspice schematic (.asc) editor

    A shallow embedding of [spicelib/editor/asc_editor.py]: the record
    parser [AscEditor.reset_netlist], the serializer
    [AscEditor.save_netlist], the alignment codec and the mutation API,
    together with the Python string primitives they are written with.

    Conventions of the embedding.
    - A Python [str] is a [string]; a character is a code point below 256.
    - A Python [int] is a [Z].
    - A file is its text as Python's text mode presents it, every line
      terminator already translated to a line feed.  Logging is left out.
    - A call that can raise returns an [outcome]: [Returns v] or
      [Raises e], where [e] records the exception class and, for the
      exceptions the source raises itself, the message.
    - A method of the editor takes the editor and returns the editor next
      to its result, so that what a method writes to [self] is visible in
      its type. *)

From Stdlib Require Import ZArith List String Ascii Bool Lia.
From Stdlib Require Import DecimalString DecimalPos.
Import ListNotations.

Local Open Scope string_scope.
Local Open Scope Z_scope.

(* ================================================================== *)
(** * Exceptions and the error monad *)
(* ================================================================== *)

Inductive exn_kind : Type :=
| ValueError
| AssertionError
| NotImplementedError
| AttributeError
| TypeError
| IndexError
| KeyError
| RuntimeError
| ComponentNotFoundError
| ParameterNotFoundError.

(** An exception: its class and its message.  The messages of errors the
    interpreter raises on its own (a failed unpacking, a failed [int()])
    are left empty. *)
Record exn : Type := Exn { kind : exn_kind; msg : string }.

Inductive outcome (A : Type) : Type :=
| Returns (a : A)
| Raises (e : exn).
Arguments Returns {A} a.
Arguments Raises {A} e.

Definition bind {A B} (m : outcome A) (k : A -> outcome B) : outcome B :=
  match m with
  | Returns a => k a
  | Raises e => Raises e
  end.

Notation "x <- m ;; k" := (bind m (fun x => k))
  (at level 61, m at next level, right associativity).
Notation "' p <- m ;; k" := (bind m (fun p => k))
  (at level 61, p pattern, m at next level, right associativity).

Definition raise {A} (k : exn_kind) (m : string) : outcome A :=
  Raises (Exn k m).

Definition exn_kind_eqb (a b : exn_kind) : bool :=
  match a, b with
  | ValueError, ValueError
  | AssertionError, AssertionError
  | NotImplementedError, NotImplementedError
  | AttributeError, AttributeError
  | TypeError, TypeError
  | IndexError, IndexError
  | KeyError, KeyError
  | RuntimeError, RuntimeError
  | ComponentNotFoundError, ComponentNotFoundError
  | ParameterNotFoundError, ParameterNotFoundError => true
  | _, _ => false
  end.

(* ================================================================== *)
(** * Python string primitives *)
(* ================================================================== *)

Module PyStr.

(** [str.isspace] on one character: TAB..CR, FS..US, SPACE, NEL, NBSP.
    The same class is what [str.split()], [str.strip()] and the regular
    expression escape [\s] use. *)
Definition isspace (c : ascii) : bool :=
  let n := nat_of_ascii c in
  (((9 <=? n) && (n <=? 13)) || ((28 <=? n) && (n <=? 32))
   || (n =? 133) || (n =? 160))%nat.

(** The regular expression escape [\d], and the digits [int()] reads. *)
Definition isdigit (c : ascii) : bool :=
  let n := nat_of_ascii c in ((48 <=? n) && (n <=? 57))%nat.

Definition digit_val (c : ascii) : Z := Z.of_nat (nat_of_ascii c) - 48.

Definition upper_char (c : ascii) : ascii :=
  let n := nat_of_ascii c in
  if ((97 <=? n) && (n <=? 122))%nat then ascii_of_nat (n - 32) else c.

Definition lower_char (c : ascii) : ascii :=
  let n := nat_of_ascii c in
  if ((65 <=? n) && (n <=? 90))%nat then ascii_of_nat (n + 32) else c.

(** [s.upper()], on the letters a..z. *)
Fixpoint upper (s : string) : string :=
  match s with
  | EmptyString => EmptyString
  | String c r => String (upper_char c) (upper r)
  end.

(** [s.startswith(p)] *)
Fixpoint startswith (p s : string) : bool :=
  match p, s with
  | EmptyString, _ => true
  | String a p', String b s' => Ascii.eqb a b && startswith p' s'
  | String _ _, EmptyString => false
  end.

(** [s[n:]] for [0 <= n] *)
Fixpoint drop (n : nat) (s : string) : string :=
  match n, s with
  | O, _ => s
  | S n', String _ r => drop n' r
  | S _, EmptyString => EmptyString
  end.

(** [s.lstrip()] *)
Fixpoint lstrip (s : string) : string :=
  match s with
  | String c r => if isspace c then lstrip r else s
  | EmptyString => EmptyString
  end.

(** [s.rstrip()] *)
Fixpoint rstrip (s : string) : string :=
  match s with
  | EmptyString => EmptyString
  | String c r =>
      match rstrip r with
      | EmptyString => if isspace c then EmptyString else String c EmptyString
      | r' => String c r'
      end
  end.

(** [s.strip()] *)
Definition strip (s : string) : string := rstrip (lstrip s).

Definition is_empty (s : string) : bool :=
  match s with EmptyString => true | _ => false end.

Definition emit (w : string) : list string :=
  if is_empty w then [] else [w].

(** [s.split(maxsplit=k)] with no separator: runs of whitespace
    separate the words, at most [k] words are split off, and what
    follows them (leading whitespace skipped) is returned whole, its
    trailing whitespace included.  [w] is the word being read. *)
Fixpoint split_go (k : nat) (w : string) (s : string) : list string :=
  match s with
  | EmptyString => emit w
  | String c r =>
      if isspace c then
        if is_empty w then split_go k w r
        else w :: split_go (Nat.pred k) EmptyString r
      else
        match k, is_empty w with
        | O, true => [s]
        | _, _ => split_go k (w ++ String c EmptyString) r
        end
  end.

Definition split_max (k : nat) (s : string) : list string :=
  split_go k EmptyString s.

(** [s.split()]: no bound on the number of words; a string of length
    [n] has fewer than [n + 1] words. *)
Definition split (s : string) : list string :=
  split_max (S (String.length s)) s.

(** The digits of an integer literal as [int()] reads them: at least
    one digit, single underscores allowed between digits. *)
Fixpoint int_digits (acc : Z) (after_digit : bool) (s : string) : option Z :=
  match s with
  | EmptyString => if after_digit then Some acc else None
  | String c r =>
      if isdigit c then int_digits (10 * acc + digit_val c) true r
      else if Ascii.eqb c "_"%char then
        if after_digit then int_digits acc false r else None
      else None
  end.

(** [int(s)] for a string argument: surrounding whitespace is ignored,
    one sign is allowed. *)
Definition int (s : string) : outcome Z :=
  let r :=
    match strip s with
    | String c d =>
        if Ascii.eqb c "-"%char then option_map Z.opp (int_digits 0 false d)
        else if Ascii.eqb c "+"%char then int_digits 0 false d
        else int_digits 0 false (String c d)
    | EmptyString => None
    end in
  match r with
  | Some z => Returns z
  | None => raise ValueError ""
  end.

(** [str(z)], which is also how an f-string renders an [int]. *)
Definition of_int (z : Z) : string :=
  NilZero.string_of_int (Z.to_int z).

(** [needle in s] for two strings: [needle] occurs in [s]. *)
Fixpoint contains (needle s : string) : bool :=
  startswith needle s ||
  match s with
  | EmptyString => false
  | String _ r => contains needle r
  end.

(** [s[0]] *)
Definition first (s : string) : outcome ascii :=
  match s with
  | String c _ => Returns c
  | EmptyString => raise IndexError "string index out of range"
  end.

(** The text of a file as the lines a [for line in file] loop sees:
    every line keeps its terminator, the last one may lack it. *)
Fixpoint lines_go (cur : string) (s : string) : list string :=
  match s with
  | EmptyString => emit cur
  | String c r =>
      if Ascii.eqb c "010"%char
      then (cur ++ String c EmptyString) :: lines_go EmptyString r
      else lines_go (cur ++ String c EmptyString) r
  end.

Definition readlines (s : string) : list string := lines_go EmptyString s.

(** [s.replace(old, new)] for a non-empty [old]: the occurrences of
    [old] are found from left to right and do not overlap; [skip] counts
    the characters of an occurrence still to pass. *)
Fixpoint replace_go (old new : string) (skip : nat) (s : string) : string :=
  match s with
  | EmptyString => EmptyString
  | String c r =>
      match skip with
      | S k => replace_go old new k r
      | O =>
          if startswith old s
          then new ++ replace_go old new (Nat.pred (String.length old)) r
          else String c (replace_go old new O r)
      end
  end.

(** [s.replace("", new)]: [new] before every character and at the end. *)
Fixpoint intersperse (new : string) (s : string) : string :=
  match s with
  | EmptyString => new
  | String c r => new ++ String c (intersperse new r)
  end.

(** [s.replace(old, new)] *)
Definition replace (old new s : string) : string :=
  if is_empty old then intersperse new s else replace_go old new O s.

End PyStr.

(* ================================================================== *)
(** * The regular expression TEXT_REGEX *)
(* ================================================================== *)

Module Re.

(** The longest prefix of [s] whose characters satisfy [p], and the rest. *)
Fixpoint span (p : ascii -> bool) (s : string) : string * string :=
  match s with
  | String c r =>
      if p c then let '(a, b) := span p r in (String c a, b)
      else (EmptyString, s)
  | EmptyString => (EmptyString, EmptyString)
  end.

(** [p+] *)
Definition many1 (p : ascii -> bool) (s : string) : option (string * string) :=
  match span p s with
  | (EmptyString, _) => None
  | r => Some r
  end.

(** A literal under [re.IGNORECASE]: the text matched and the rest. *)
Fixpoint lit_ci (l s : string) : option (string * string) :=
  match l, s with
  | EmptyString, _ => Some (EmptyString, s)
  | String a l', String b s' =>
      if Ascii.eqb (PyStr.lower_char a) (PyStr.lower_char b) then
        match lit_ci l' s' with
        | Some (m, r) => Some (String b m, r)
        | None => None
        end
      else None
  | String _ _, EmptyString => None
  end.

(** [-?\d+] *)
Definition signed_digits (s : string) : option (string * string) :=
  match s with
  | String c r =>
      if Ascii.eqb c "-"%char then
        match many1 PyStr.isdigit r with
        | Some (d, r') => Some (String c d, r')
        | None => None
        end
      else many1 PyStr.isdigit s
  | EmptyString => None
  end.

(** An alternation of literals, tried from left to right. *)
Fixpoint alt_ci (ls : list string) (s : string) : option (string * string) :=
  match ls with
  | [] => None
  | l :: ls' =>
      match lit_ci l s with
      | Some r => Some r
      | None => alt_ci ls' s
      end
  end.

Definition not_newline (c : ascii) : bool := negb (Ascii.eqb c "010"%char).

(** The groups of one match of TEXT_REGEX. *)
Record text_match : Type := TextMatch {
  group_x : string;      (* TEXT_REGEX_X = 1 *)
  group_y : string;      (* TEXT_REGEX_Y = 2 *)
  group_align : string;  (* TEXT_REGEX_ALIGN = 3 *)
  group_size : string;   (* TEXT_REGEX_SIZE = 4 *)
  group_type : ascii;    (* TEXT_REGEX_TYPE = 5 *)
  group_text : string    (* TEXT_REGEX_TEXT = 6 *)
}.

Definition opt_bind {A B} (o : option A) (k : A -> option B) : option B :=
  match o with Some a => k a | None => None end.

(** [TEXT_REGEX.match(line)].  The pattern, compiled with
    [re.IGNORECASE], is in sequence: the literal TEXT and one space; a
    signed number (group 1); whitespace; a signed number (group 2);
    whitespace; one of Left, Right, Top, Bottom (group 3); one
    whitespace character; digits (group 4); optional whitespace; one
    of the two characters ! and ; (group type); the rest of the line up
    to its terminator (group text).  It is matched from left to
    right, every repetition taking all it can.  That is what the
    backtracking matcher finds as well: the character class of each
    repetition is disjoint from what must follow it, the four
    alternatives start with different letters, and the final [.*] is
    followed by nothing, so no shorter repetition can succeed where the
    longest fails. *)
Definition TEXT_REGEX_match (line : string) : option text_match :=
  opt_bind (lit_ci "TEXT " line) (fun '(_, r) =>
  opt_bind (signed_digits r) (fun '(x, r) =>
  opt_bind (many1 PyStr.isspace r) (fun '(_, r) =>
  opt_bind (signed_digits r) (fun '(y, r) =>
  opt_bind (many1 PyStr.isspace r) (fun '(_, r) =>
  opt_bind (alt_ci ["Left"; "Right"; "Top"; "Bottom"] r) (fun '(al, r) =>
  match r with
  | String c r =>
      if PyStr.isspace c then
        opt_bind (many1 PyStr.isdigit r) (fun '(sz, r) =>
        let '(_, r) := span PyStr.isspace r in
        match r with
        | String t r =>
            if Ascii.eqb t "!"%char || Ascii.eqb t ";"%char then
              Some (TextMatch x y al sz t (fst (span not_newline r)))
            else None
        | EmptyString => None
        end)
      else None
  | EmptyString => None
  end)))))).

End Re.

(* ================================================================== *)
(** * Data model *)
(* ================================================================== *)

(** The classes below are declared in [base_editor], which the editor
    imports; their fields are the ones [asc_editor.py] reads and writes. *)

Record Point : Type := mkPoint { X : Z; Y : Z }.

Record Line : Type := mkLine { V1 : Point; V2 : Point }.

Inductive ERotation : Type := R0 | R90 | R180 | R270.

Module HorAlign.
Inductive t : Type := LEFT | CENTER | RIGHT.
End HorAlign.

Module VerAlign.
Inductive t : Type := TOP | CENTER | BOTTOM.
End VerAlign.

(** A value that is an [int] in one place and a [str] in another: the
    [size] of a Text is the [int] read from a TEXT record and the
    untouched token of a WINDOW record. *)
Inductive PyVal : Type :=
| PInt (z : Z)
| PStr (s : string).

Record Text : Type := mkText {
  coord : Point;
  text : string;
  size : PyVal;
  textAlignment : HorAlign.t;
  verticalAlignment : VerAlign.t
}.

(** An attribute of a component: a plain string, or a positioned Text. *)
Inductive AttrVal : Type :=
| AStr (s : string)
| AText (t : Text).

(** A [dict] with string keys: an association list without repeated
    keys, in insertion order. *)
Definition dict (V : Type) : Type := list (string * V).

Module Dict.
Section Ops.
Context {V : Type}.

(** [d[k] = v]: the value of an existing key is replaced where it
    stands, a new key goes last. *)
Fixpoint set (k : string) (v : V) (d : dict V) : dict V :=
  match d with
  | [] => [(k, v)]
  | (k', v') :: d' =>
      if String.eqb k k' then (k, v) :: d' else (k', v') :: set k v d'
  end.

(** [d.get(k)] *)
Fixpoint get (k : string) (d : dict V) : option V :=
  match d with
  | [] => None
  | (k', v') :: d' => if String.eqb k k' then Some v' else get k d'
  end.

(** [k in d] *)
Definition mem (k : string) (d : dict V) : bool :=
  match get k d with Some _ => true | None => false end.

(** [d.keys()], [d.values()] *)
Definition keys (d : dict V) : list string := map fst d.
Definition values (d : dict V) : list V := map snd d.

(** The dictionary without the key [k]. *)
Fixpoint remove (k : string) (d : dict V) : dict V :=
  match d with
  | [] => []
  | (k', v') :: d' =>
      if String.eqb k k' then d' else (k', v') :: remove k d'
  end.
End Ops.
End Dict.

Record SchematicComponent : Type := mkComponent {
  symbol : string;
  position : Point;
  rotation : ERotation;
  reference : option string;
  attributes : dict AttrVal
}.

(** [self.version]: the integer 4 the constructor assigns, or the token
    of a Version record. *)
Inductive VersionVal : Type :=
| VerInt (z : Z)
| VerStr (s : string).

(** [self.sheet]: the pair (0, 0) the constructor assigns, or the text
    of a SHEET record. *)
Inductive SheetVal : Type :=
| SheetTuple (a b : Z)
| SheetStr (s : string).

(** The attributes of an [AscEditor] that the methods below touch. *)
Record AscEditor : Type := mkEditor {
  version : VersionVal;
  sheet : SheetVal;
  _wires : list Line;
  _labels : list Text;
  _directives : list Text;
  _components : dict SchematicComponent
}.

Definition END_LINE_TERM : string := String "010"%char EmptyString.
Definition dquote : string := String "034"%char EmptyString.

(** ASC_ROTATION_DICT and its inverse *)
Definition ASC_ROTATION_DICT (tok : string) : option ERotation :=
  if String.eqb tok "R0" then Some R0
  else if String.eqb tok "R90" then Some R90
  else if String.eqb tok "R180" then Some R180
  else if String.eqb tok "R270" then Some R270
  else None.

Definition ASC_INV_ROTATION_DICT (r : ERotation) : string :=
  match r with
  | R0 => "R0"
  | R90 => "R90"
  | R180 => "R180"
  | R270 => "R270"
  end.

(** [asc_text_align_set] *)
Definition asc_text_align_set (t : Text) (alignment : string) : Text :=
  let upd h v := mkText (coord t) (text t) (size t) h v in
  if String.eqb alignment "Left" then upd HorAlign.LEFT VerAlign.CENTER
  else if String.eqb alignment "Center" then upd HorAlign.CENTER VerAlign.CENTER
  else if String.eqb alignment "Right" then upd HorAlign.RIGHT VerAlign.CENTER
  else if String.eqb alignment "VTop" then upd HorAlign.CENTER VerAlign.TOP
  else if String.eqb alignment "VCenter" then upd HorAlign.CENTER VerAlign.CENTER
  else if String.eqb alignment "VBottom" then upd HorAlign.LEFT VerAlign.BOTTOM
  else upd HorAlign.LEFT VerAlign.BOTTOM.

(** [asc_text_align_get], branch for branch: the test for
    [VerAlign.CENTER] in the second half is the source's. *)
Definition asc_text_align_get (t : Text) : string :=
  match verticalAlignment t with
  | VerAlign.CENTER =>
      match textAlignment t with
      | HorAlign.RIGHT => "Right"
      | HorAlign.CENTER => "Center"
      | _ => "Left"
      end
  | v =>
      match v with
      | VerAlign.TOP => "VTop"
      | VerAlign.CENTER => "VCenter"
      | VerAlign.BOTTOM => "VBottom"
      end
  end.

(* ================================================================== *)
(** * Unpacking assignments *)
(* ================================================================== *)

(** [a, b = l] and its longer forms: a list of any other length raises
    ValueError. *)
Definition unpack2 {A} (l : list A) : outcome (A * A) :=
  match l with
  | [a; b] => Returns (a, b)
  | _ => raise ValueError ""
  end.

Definition unpack3 {A} (l : list A) : outcome (A * A * A) :=
  match l with
  | [a; b; c] => Returns (a, b, c)
  | _ => raise ValueError ""
  end.

Definition unpack4 {A} (l : list A) : outcome (A * A * A * A) :=
  match l with
  | [a; b; c; d] => Returns (a, b, c, d)
  | _ => raise ValueError ""
  end.

Definition unpack5 {A} (l : list A) : outcome (A * A * A * A * A) :=
  match l with
  | [a; b; c; d; e] => Returns (a, b, c, d, e)
  | _ => raise ValueError ""
  end.

Definition unpack6 {A} (l : list A) : outcome (A * A * A * A * A * A) :=
  match l with
  | [a; b; c; d; e; f] => Returns (a, b, c, d, e, f)
  | _ => raise ValueError ""
  end.

(* ================================================================== *)
(** * Field updates *)
(* ================================================================== *)

Definition set_version (v : VersionVal) (e : AscEditor) : AscEditor :=
  mkEditor v (sheet e) (_wires e) (_labels e) (_directives e) (_components e).

Definition set_sheet (s : SheetVal) (e : AscEditor) : AscEditor :=
  mkEditor (version e) s (_wires e) (_labels e) (_directives e) (_components e).

Definition set_wires (w : list Line) (e : AscEditor) : AscEditor :=
  mkEditor (version e) (sheet e) w (_labels e) (_directives e) (_components e).

Definition set_labels (l : list Text) (e : AscEditor) : AscEditor :=
  mkEditor (version e) (sheet e) (_wires e) l (_directives e) (_components e).

Definition set_directives (d : list Text) (e : AscEditor) : AscEditor :=
  mkEditor (version e) (sheet e) (_wires e) (_labels e) d (_components e).

Definition set_components (c : dict SchematicComponent) (e : AscEditor)
  : AscEditor :=
  mkEditor (version e) (sheet e) (_wires e) (_labels e) (_directives e) c.

Definition set_reference (r : string) (c : SchematicComponent)
  : SchematicComponent :=
  mkComponent (symbol c) (position c) (rotation c) (Some r) (attributes c).

Definition set_attribute (k : string) (v : AttrVal) (c : SchematicComponent)
  : SchematicComponent :=
  mkComponent (symbol c) (position c) (rotation c) (reference c)
    (Dict.set k v (attributes c)).

Definition set_symbol (s : string) (c : SchematicComponent)
  : SchematicComponent :=
  mkComponent s (position c) (rotation c) (reference c) (attributes c).

(* ================================================================== *)
(** * The record parser *)
(* ================================================================== *)

Section Editor.

(** The defaults of the fields of [Text] that a call of its constructor
    leaves out.  They are declared with the class, in [base_editor]. *)
Variable default_size : PyVal.
Variable default_textAlignment : HorAlign.t.
Variable default_verticalAlignment : VerAlign.t.

(** [Text(coord=c, text=t)] and [Text(coord=c, text=t, size=s)] *)
Definition Text_new (c : Point) (t : string) (s : option PyVal) : Text :=
  mkText c t
    (match s with Some v => v | None => default_size end)
    default_textAlignment default_verticalAlignment.

Section Parser.

(** Modelled from the spec: [SchematicComponent()] is declared in
    [base_editor].  The new component has no reference (the parser
    asserts that one is given before it stores the component) and no
    attributes; its symbol, position and rotation are assigned by the
    SYMBOL branch before anything reads them. *)
Definition SchematicComponent_new (sym : string) (p : Point) (r : ERotation)
  : SchematicComponent :=
  mkComponent sym p r None [].

(** The parser's two variables: the editor and the component being
    read. *)
Definition pstate : Type := (AscEditor * option SchematicComponent)%type.

(** [assert component.reference is not None; self._components[component.reference] = component],
    under [if component is not None]. *)
Definition commit (self : AscEditor) (component : option SchematicComponent)
  : outcome AscEditor :=
  match component with
  | None => Returns self
  | Some c =>
      match reference c with
      | None => raise AssertionError "Component InstName was not given"
      | Some r => Returns (set_components (Dict.set r c (_components self)) self)
      end
  end.

(** One turn of the loop [for line in asc_file]. *)
Definition parse_line (line : string) (st : pstate) : outcome pstate :=
  let '(self, component) := st in
  if PyStr.startswith "SYMBOL" line then
    '(_, sym, posX, posY, rot) <- unpack5 (PyStr.split line) ;;
    self <- commit self component ;;
    x <- PyStr.int posX ;;
    y <- PyStr.int posY ;;
    match ASC_ROTATION_DICT rot with
    | Some r => Returns (self, Some (SchematicComponent_new sym (mkPoint x y) r))
    | None => raise ValueError ("Invalid Rotation value: " ++ rot)
    end
  else if PyStr.startswith "WINDOW" line then
    match component with
    | None => raise AssertionError "Syntax Error: WINDOW clause without SYMBOL"
    | Some c =>
        '(_, num_ref, posX, posY, alignment, sz) <- unpack6 (PyStr.split line) ;;
        x <- PyStr.int posX ;;
        y <- PyStr.int posY ;;
        let t := Text_new (mkPoint x y) num_ref (Some (PStr sz)) in
        let t := asc_text_align_set t alignment in
        Returns (self, Some (set_attribute ("WINDOW " ++ num_ref) (AText t) c))
    end
  else if PyStr.startswith "SYMATTR" line then
    match component with
    | None => raise AssertionError "Syntax Error: SYMATTR clause without SYMBOL"
    | Some c =>
        '(_, ref, txt) <- unpack3 (PyStr.split_max 2 line) ;;
        let txt := PyStr.strip txt in
        if String.eqb ref "InstName"
        then Returns (self, Some (set_reference txt c))
        else Returns (self, Some (set_attribute ref (AStr txt) c))
    end
  else if PyStr.startswith "TEXT" line then
    match Re.TEXT_REGEX_match line with
    | Some m =>
        x <- PyStr.int (Re.group_x m) ;;
        y <- PyStr.int (Re.group_y m) ;;
        sz <- PyStr.int (Re.group_size m) ;;
        let sz := if Ascii.eqb (Re.group_type m) "!"%char then sz else - sz in
        let t := Text_new (mkPoint x y) (PyStr.strip (Re.group_text m))
                   (Some (PInt sz)) in
        let t := asc_text_align_set t (Re.group_align m) in
        Returns (set_directives (_directives self ++ [t]) self, component)
    | None => Returns (self, component)
    end
  else if PyStr.startswith "WIRE" line then
    '(_, x1, y1, x2, y2) <- unpack5 (PyStr.split line) ;;
    x1 <- PyStr.int x1 ;;
    y1 <- PyStr.int y1 ;;
    x2 <- PyStr.int x2 ;;
    y2 <- PyStr.int y2 ;;
    let wire := mkLine (mkPoint x1 y1) (mkPoint x2 y2) in
    Returns (set_wires (_wires self ++ [wire]) self, component)
  else if PyStr.startswith "FLAG" line then
    '(_, posX, posY, txt) <- unpack4 (PyStr.split_max 4 line) ;;
    x <- PyStr.int posX ;;
    y <- PyStr.int posY ;;
    let flag := Text_new (mkPoint x y) txt None in
    Returns (set_labels (_labels self ++ [flag]) self, component)
  else if PyStr.startswith "Version" line then
    '(_, ver) <- unpack2 (PyStr.split line) ;;
    if String.eqb ver "4"
    then Returns (set_version (VerStr ver) self, component)
    else raise AssertionError ("Unsupported version : " ++ ver)
  else if PyStr.startswith "SHEET " line then
    Returns (set_sheet (SheetStr (PyStr.strip (PyStr.drop 6 line))) self,
             component)
  else
    raise NotImplementedError
      ("Primitive not supported for ASC file" ++ END_LINE_TERM
       ++ dquote ++ line ++ dquote).

Fixpoint parse_lines (lines : list string) (st : pstate) : outcome pstate :=
  match lines with
  | [] => Returns st
  | line :: rest => st' <- parse_line line st ;; parse_lines rest st'
  end.

(** Modelled from the spec: [BaseEditor.reset_netlist], which
    [reset_netlist] calls first, is declared in [base_editor].  A reset
    is a full reparse, so the four collections start empty; the version
    and the sheet are the constructor's and are left alone. *)
Definition super_reset_netlist (self : AscEditor) : AscEditor :=
  mkEditor (version self) (sheet self) [] [] [] [].

(** [AscEditor.reset_netlist], on the lines of the file at
    [self._asc_file_path]. *)
Definition reset_netlist (lines : list string) (self : AscEditor)
  : outcome AscEditor :=
  '(self, component) <- parse_lines lines (super_reset_netlist self, None) ;;
  commit self component.

(** [AscEditor(asc_file)], on the text of the file. *)
Definition AscEditor_new (file : string) : outcome AscEditor :=
  reset_netlist (PyStr.readlines file)
    (mkEditor (VerInt 4) (SheetTuple 0 0) [] [] [] []).

End Parser.

(* ================================================================== *)
(** * The record serializer *)
(* ================================================================== *)

Section Serializer.

(** How an f-string renders a [Text] object: the [repr] of the class,
    declared in [base_editor].  It is reached only for a Text stored
    under a key that does not start with WINDOW. *)
Variable repr_Text : Text -> string.

Definition fmt_PyVal (v : PyVal) : string :=
  match v with
  | PInt z => PyStr.of_int z
  | PStr s => s
  end.

Definition fmt_version (v : VersionVal) : string :=
  match v with
  | VerInt z => PyStr.of_int z
  | VerStr s => s
  end.

Definition fmt_sheet (s : SheetVal) : string :=
  match s with
  | SheetTuple a b => "(" ++ PyStr.of_int a ++ ", " ++ PyStr.of_int b ++ ")"
  | SheetStr s => s
  end.

Definition fmt_AttrVal (v : AttrVal) : string :=
  match v with
  | AStr s => s
  | AText t => repr_Text t
  end.

Definition wire_line (wire : Line) : string :=
  "WIRE " ++ PyStr.of_int (X (V1 wire)) ++ " " ++ PyStr.of_int (Y (V1 wire))
  ++ " " ++ PyStr.of_int (X (V2 wire)) ++ " " ++ PyStr.of_int (Y (V2 wire))
  ++ END_LINE_TERM.

Definition flag_line (flag : Text) : string :=
  "FLAG " ++ PyStr.of_int (X (coord flag)) ++ " "
  ++ PyStr.of_int (Y (coord flag)) ++ " " ++ text flag ++ END_LINE_TERM.

(** The first loop over [component.attributes.items()]. *)
Definition window_lines (attrs : dict AttrVal) : list string :=
  flat_map (fun '(attr, value) =>
    match value with
    | AText t =>
        if PyStr.startswith "WINDOW" attr then
          [attr ++ " " ++ PyStr.of_int (X (coord t)) ++ " "
           ++ PyStr.of_int (Y (coord t)) ++ " " ++ asc_text_align_get t
           ++ " " ++ fmt_PyVal (size t) ++ END_LINE_TERM]
        else []
    | AStr _ => []
    end) attrs.

(** The second loop over [component.attributes.items()]. *)
Definition symattr_lines (attrs : dict AttrVal) : list string :=
  flat_map (fun '(attr, value) =>
    if negb (PyStr.startswith "WINDOW" attr) then
      ["SYMATTR " ++ attr ++ " " ++ fmt_AttrVal value ++ END_LINE_TERM]
    else []) attrs.

(** [f"{component.reference}"]: a reference that was never assigned is
    rendered as None. *)
Definition fmt_reference (r : option string) : string :=
  match r with Some s => s | None => "None" end.

Definition component_lines (component : SchematicComponent) : list string :=
  List.concat
    [ ["SYMBOL " ++ symbol component ++ " "
       ++ PyStr.of_int (X (position component)) ++ " "
       ++ PyStr.of_int (Y (position component)) ++ " "
       ++ ASC_INV_ROTATION_DICT (rotation component) ++ END_LINE_TERM];
      window_lines (attributes component);
      ["SYMATTR InstName " ++ fmt_reference (reference component)
       ++ END_LINE_TERM];
      symattr_lines (attributes component) ].

(** The line of one directive.  A size that is not a number cannot be
    compared with 0. *)
Definition directive_line (directive : Text) : outcome string :=
  match size directive with
  | PInt sz =>
      let '(sz, directive_type) :=
        if sz <? 0 then (- sz, "?") else (sz, "!") in
      Returns ("TEXT " ++ PyStr.of_int (X (coord directive)) ++ " "
               ++ PyStr.of_int (Y (coord directive)) ++ " "
               ++ asc_text_align_get directive ++ " " ++ PyStr.of_int sz
               ++ " " ++ directive_type ++ text directive ++ END_LINE_TERM)
  | PStr _ => raise TypeError ""
  end.

Fixpoint directive_lines (ds : list Text) : outcome (list string) :=
  match ds with
  | [] => Returns []
  | d :: rest =>
      l <- directive_line d ;;
      ls <- directive_lines rest ;;
      Returns (l :: ls)
  end.

(** [AscEditor.save_netlist]: the lines written, in order. *)
Definition save_lines (self : AscEditor) : outcome (list string) :=
  ds <- directive_lines (_directives self) ;;
  Returns
    (List.concat
       [ ["Version " ++ fmt_version (version self) ++ END_LINE_TERM];
         ["SHEET " ++ fmt_sheet (sheet self) ++ END_LINE_TERM];
         map wire_line (_wires self);
         map flag_line (_labels self);
         flat_map component_lines (Dict.values (_components self));
         ds ]).

(** [AscEditor.save_netlist]: the text of the file written. *)
Definition save_netlist (self : AscEditor) : outcome string :=
  ls <- save_lines self ;;
  Returns (String.concat "" ls).

End Serializer.

(* ================================================================== *)
(** * The mutation API *)
(* ================================================================== *)

(** The bounding box [_get_text_space] accumulates. *)
Record bbox : Type := mkBBox { min_x : Z; max_x : Z; min_y : Z; max_y : Z }.

Definition bbox_point (b : bbox) (px py : Z) : bbox :=
  mkBBox (Z.min (min_x b) px) (Z.max (max_x b) px)
         (Z.min (min_y b) py) (Z.max (max_y b) py).

(** The body of [for wire in self._wires], as the source has it. *)
Definition bbox_wire (b : bbox) (wire : Line) : bbox :=
  mkBBox (Z.min (min_x b) (Z.min (X (V1 wire)) (X (V2 wire))))
         (Z.max (max_x b) (Z.max (X (V1 wire)) (X (V2 wire))))
         (Z.min (min_y b) (Z.min (Y (V1 wire)) (X (V2 wire))))
         (Z.max (max_y b) (Z.max (Y (V1 wire)) (X (V2 wire)))).

Definition bbox_text (b : bbox) (t : Text) : bbox :=
  bbox_point b (X (coord t)) (Y (coord t)).

Definition bbox_component (b : bbox) (c : SchematicComponent) : bbox :=
  bbox_point b (X (position c)) (Y (position c)).

(** [self.sheet.split()]: the constructor's pair has no such method. *)
Definition sheet_split (s : SheetVal) : outcome (list string) :=
  match s with
  | SheetStr s => Returns (PyStr.split s)
  | SheetTuple _ _ => raise AttributeError ""
  end.

(** [AscEditor._get_text_space] *)
Definition _get_text_space (self : AscEditor) : outcome (Z * Z) :=
  let b := mkBBox 100000 (-100000) 100000 (-100000) in
  fields <- sheet_split (sheet self) ;;
  '(_, x, y) <- unpack3 fields ;;
  x <- PyStr.int x ;;
  y <- PyStr.int y ;;
  let b := mkBBox (Z.min (min_x b) x) (max_x b) (Z.min (min_y b) y) (max_y b) in
  let b := fold_left bbox_wire (_wires self) b in
  let b := fold_left bbox_text (_labels self) b in
  let b := fold_left bbox_text (_directives self) b in
  let b := fold_left bbox_component (Dict.values (_components self)) b in
  Returns (min_x b, max_y b + 24).

(** [AscEditor.get_component_info] *)
Definition get_component_info (component : string) (self : AscEditor)
  : outcome SchematicComponent :=
  match Dict.get component (_components self) with
  | None =>
      raise ComponentNotFoundError
        ("Component " ++ component ++ " not found in ASC file")
  | Some c => Returns c
  end.

(** [AscEditor.get_component_value] *)
Definition get_component_value (element : string) (self : AscEditor)
  : outcome (AttrVal * AscEditor) :=
  comp_info <- get_component_info element self ;;
  match Dict.get "Value" (attributes comp_info) with
  | None =>
      raise ComponentNotFoundError
        ("Component " ++ element ++ " does not have a Value attribute")
  | Some v => Returns (v, self)
  end.

(** The keys [k] of the comprehension [[k for k in keys if k[0] in prefixes]],
    for a string [prefixes]. *)
Fixpoint keys_with_prefix (prefixes : string) (ks : list string)
  : outcome (list string) :=
  match ks with
  | [] => Returns []
  | k :: rest =>
      c <- PyStr.first k ;;
      ks' <- keys_with_prefix prefixes rest ;;
      Returns (if PyStr.contains (String c EmptyString) prefixes
               then k :: ks' else ks')
  end.

(** [AscEditor.get_components], for a string argument. *)
Definition get_components (prefixes : string) (self : AscEditor)
  : outcome (list string * AscEditor) :=
  if String.eqb prefixes "*" then
    Returns (Dict.keys (_components self), self)
  else
    ks <- keys_with_prefix prefixes (Dict.keys (_components self)) ;;
    Returns (ks, self).

(** [AscEditor.set_element_model] *)
Definition set_element_model (element model : string) (self : AscEditor)
  : outcome (unit * AscEditor) :=
  component <- get_component_info element self ;;
  Returns (tt, set_components
                 (Dict.set element (set_symbol model component)
                    (_components self)) self).

(** [AscEditor.remove_component] *)
Definition remove_component (designator : string) (self : AscEditor)
  : outcome (unit * AscEditor) :=
  if Dict.mem designator (_components self) then
    Returns (tt, set_components (Dict.remove designator (_components self)) self)
  else raise KeyError designator.

Section Mutation.

(** The numbers a caller may pass where a value is expected (Python
    [int] and [float]) and the two ways the editor renders them:
    [format_eng], imported from [base_editor], and [str]. *)
Variable Number : Type.
Variable format_eng : Number -> string.
Variable str_Number : Number -> string.

(** A value of type [Union[str, int, float]]. *)
Inductive Value : Type :=
  | ValStr (s : string)
  | ValNum (n : Number).

Definition fmt_Value (v : Value) : string :=
  match v with
  | ValStr s => s
  | ValNum n => str_Number n
  end.

(** [AscEditor.set_component_value].  [component] is the object stored
    in [self._components], so the assignment to its attributes changes
    the editor. *)
Definition set_component_value (device : string) (value : Value)
    (self : AscEditor) : outcome (unit * AscEditor) :=
  component <- get_component_info device self ;;
  if Dict.mem "Value" (attributes component) then
    let value_str :=
      match value with
      | ValStr s => s
      | ValNum n => format_eng n
      end in
    Returns (tt, set_components
                   (Dict.set device
                      (set_attribute "Value" (AStr value_str) component)
                      (_components self)) self)
  else
    raise ComponentNotFoundError
      ("Component " ++ device ++ " does not have a Value attribute").

(** The match objects of PARAM_REGEX, a pattern imported from
    [base_editor]: [PARAM_search param text] is
    [re.compile(PARAM_REGEX % param, re.IGNORECASE).search(text)], and
    [group_value m] is [m.group('value')], [None] or a string. *)
Variable Match : Type.
Variable PARAM_search : string -> string -> option Match.
Variable group_value : Match -> option string.

(** [AscEditor._get_directive]: the first directive whose text starts
    with the upper-cased command and that the expression matches. *)
Fixpoint find_directive (command_upped : string)
    (search_expression : string -> option Match) (ds : list Text)
  : option (Match * Text) :=
  match ds with
  | [] => None
  | directive :: rest =>
      if PyStr.startswith command_upped (text directive) then
        match search_expression (text directive) with
        | Some m => Some (m, directive)
        | None => find_directive command_upped search_expression rest
        end
      else find_directive command_upped search_expression rest
  end.

Definition _get_directive (command : string)
    (search_expression : string -> option Match) (self : AscEditor)
  : option (Match * Text) :=
  find_directive (PyStr.upper command) search_expression (_directives self).

(** [AscEditor.get_parameter] *)
Definition get_parameter (param : string) (self : AscEditor)
  : outcome (option string * Text) :=
  match _get_directive ".PARAM" (PARAM_search param) self with
  | Some (m, directive) => Returns (group_value m, directive)
  | None =>
      raise ParameterNotFoundError
        ("Parameter " ++ param ++ " not found in ASC file")
  end.

(** The truth value of [None] or a string. *)
Definition truthy (v : option string) : bool :=
  match v with
  | Some s => negb (PyStr.is_empty s)
  | None => false
  end.

(** [match.group('replace')] where [match] is the first component of
    what [get_parameter] returned, a string: a string has no attribute
    [group], and the statements after it are not reached. *)
Definition str_group (s : option string) (name : string)
  : outcome Empty_set :=
  raise AttributeError "".

(** [AscEditor.set_parameter] *)
Definition set_parameter (param : string) (value : Value)
    (self : AscEditor) : outcome (unit * AscEditor) :=
  '(match_, directive) <- get_parameter param self ;;
  if truthy match_ then
    let value_str :=
      match value with
      | ValNum n => format_eng n
      | ValStr s => s
      end in
    unreached <- str_group match_ "replace" ;;
    match unreached : Empty_set with end
  else
    '(x, y) <- _get_text_space self ;;
    let coord := mkPoint x y in
    let txt := ".param " ++ param ++ "=" ++ fmt_Value value in
    let directive := Text_new coord txt (Some (PInt 2)) in
    Returns (tt, set_directives (_directives self ++ [directive]) self).

(** UNIQUE_SIMULATION_DOT_INSTRUCTIONS, a collection of upper-case
    keywords imported from [base_editor], as its membership test. *)
Variable UNIQUE_SIMULATION_DOT_INSTRUCTIONS : string -> bool.

(** [s.split()[0].upper()] *)
Definition first_word_upper (s : string) : outcome string :=
  match PyStr.split s with
  | w :: _ => Returns (PyStr.upper w)
  | [] => raise IndexError "list index out of range"
  end.

(** [line_no, line = self._directives[i]]: a directive is a [Text], and
    a [Text] does not unpack into a pair. *)
Definition unpack_directive (d : Text) : outcome (Z * string) :=
  raise TypeError "".

(** Modelled from the spec: [self._asc_file_lines] and
    [self._parse_asc_file()].  [AscEditor] assigns no attribute of the
    first name and defines no method of the second, and its base class
    is declared in [base_editor]; by the design notes of the
    specification they belong to a line-indexed representation that the
    parser does not produce.  Reading either one raises AttributeError,
    and the statements after it are not reached. *)
Definition asc_file_lines (self : AscEditor) : outcome Empty_set :=
  raise AttributeError "".

(** The loop [while i < len(self._directives)] of [add_instruction],
    from the directive at index [i] on. *)
Fixpoint replace_unique (self : AscEditor) (ds : list Text)
  : outcome (option (unit * AscEditor)) :=
  match ds with
  | [] => Returns None
  | d :: rest =>
      '(line_no, line) <- unpack_directive d ;;
      command <- first_word_upper line ;;
      if UNIQUE_SIMULATION_DOT_INSTRUCTIONS command then
        unreached <- asc_file_lines self ;;
        match unreached : Empty_set with end
      else replace_unique self rest
  end.

(** The last three statements of [add_instruction]. *)
Definition append_instruction (instruction : string) (self : AscEditor)
  : outcome (unit * AscEditor) :=
  '(x, y) <- _get_text_space self ;;
  unreached <- asc_file_lines self ;;
  match unreached : Empty_set with end.

(** [AscEditor.add_instruction] *)
Definition add_instruction (instruction : string) (self : AscEditor)
  : outcome (unit * AscEditor) :=
  let instruction := PyStr.strip instruction in
  command <- first_word_upper instruction ;;
  if UNIQUE_SIMULATION_DOT_INSTRUCTIONS command then
    r <- replace_unique self (_directives self) ;;
    match r with
    | Some done => Returns done
    | None => append_instruction instruction self
    end
  else if PyStr.startswith ".PARAM" command then
    raise RuntimeError
      ("The .PARAM instruction should be added using the " ++ dquote
       ++ "set_parameter" ++ dquote ++ " method")
  else append_instruction instruction self.

(** The loop [while i < len(self._directives)] of [remove_instruction],
    from the directive at index [i] on. *)
Fixpoint remove_first (instruction : string) (self : AscEditor)
    (ds : list Text) : outcome (option (unit * AscEditor)) :=
  match ds with
  | [] => Returns None
  | d :: rest =>
      '(line_no, line) <- unpack_directive d ;;
      if PyStr.contains instruction line then
        unreached <- asc_file_lines self ;;
        match unreached : Empty_set with end
      else remove_first instruction self rest
  end.

(** [AscEditor.remove_instruction] *)
Definition remove_instruction (instruction : string) (self : AscEditor)
  : outcome (unit * AscEditor) :=
  r <- remove_first instruction self (_directives self) ;;
  match r with
  | Some done => Returns done
  | None =>
      raise RuntimeError
        ("Instruction " ++ dquote ++ instruction ++ dquote ++ " not found")
  end.

(** Compiled regular expressions: [re_compile p] is
    [re.compile(p, re.IGNORECASE)], which raises on a pattern that is
    not well formed, and [re_match r s] tells whether [r.match(s)] is a
    match. *)
Variable Pattern : Type.
Variable re_compile : string -> outcome Pattern.
Variable re_match : Pattern -> string -> bool.

(** The loop of [remove_Xinstruction], from the directive at index [i]
    on, with the flag [instr_removed].  The branch that removes a line
    ends where it reads [self._asc_file_lines], so no turn of the loop
    changes [self._directives], and the loop goes through them once. *)
Fixpoint remove_matching (regex : Pattern) (self : AscEditor)
    (instr_removed : bool) (ds : list Text) : outcome bool :=
  match ds with
  | [] => Returns instr_removed
  | d :: rest =>
      '(line_no, line) <- unpack_directive d ;;
      if re_match regex line then
        unreached <- asc_file_lines self ;;
        match unreached : Empty_set with end
      else remove_matching regex self instr_removed rest
  end.

(** [AscEditor.remove_Xinstruction]: when nothing was removed it logs an
    error and returns. *)
Definition remove_Xinstruction (search_pattern : string) (self : AscEditor)
  : outcome (unit * AscEditor) :=
  regex <- re_compile search_pattern ;;
  instr_removed <- remove_matching regex self false (_directives self) ;;
  Returns (tt, self).

End Mutation.

Section RoundTrip.

Variable repr_Text : Text -> string.

(** Open a file, save the model, open what was saved. *)
Definition roundtrip (file : string) : outcome AscEditor :=
  m <- AscEditor_new file ;;
  saved <- save_netlist repr_Text m ;;
  AscEditor_new saved.

End RoundTrip.

End Editor.

(* ================================================================== *)
(** * The QSPICE simulator class *)
(* ================================================================== *)

(** [spicelib/simulators/qspice_simulator.py]: the search for the
    executable in the body of the class [Qspice], the table of command
    line switches and [Qspice.valid_switch], and the guard of
    [Qspice.run]. *)
Module Qspice.

Definition _spice_exe_win_paths : list string :=
  ["~/Qspice/QSPICE64.exe";
   "~/AppData/Local/Programs/Qspice/QSPICE64.exe";
   "C:/Program Files/QSPICE/QSPICE64.exe"].

Definition qspice_args : dict (list string) :=
  [("ASCII", ["-ASCII"]);
   ("binary", ["-binary"]);
   ("BSIM1", ["-BSIM1"]);
   ("Meyer", ["-Meyer"]);
   ("o", ["-o"; "<path>"]);
   ("ProtectSelections", ["-ProtectSelections"; "<path>"]);
   ("ProtectSubcircuits", ["-ProtectSubcircuits"; "<path>"]);
   ("r", ["-r"; "<path>"])].

(** [Qspice.valid_switch] *)
Definition valid_switch (switch path : string) : outcome (list string) :=
  match Dict.get switch qspice_args with
  | Some switches =>
      Returns (map (fun switch => PyStr.replace "<path>" path switch) switches)
  | None => raise ValueError "Invalid switch for class "
  end.

Section Discovery.

(** The machine the class is loaded on: [sys.platform],
    [os.path.expanduser], [os.path.exists] and [Path(exe).name]. *)
Variable platform : string.
Variable expanduser : string -> string.
Variable path_exists : string -> bool.
Variable path_name : string -> string.

(** The loop [for exe in _spice_exe_win_paths], which stops at the
    first path that exists: the values of [spice_exe] and
    [process_name] after it. *)
Fixpoint find_exe (paths : list string) : list string * option string :=
  match paths with
  | [] => ([], None)
  | exe :: rest =>
      let exe := if PyStr.startswith "~" exe then expanduser exe else exe in
      if path_exists exe then ([exe], Some (path_name exe))
      else find_exe rest
  end.

(** The class attributes [spice_exe] and [process_name] once the body
    of the class has run. *)
Definition spice_exe_process_name : list string * option string :=
  let '(spice_exe, process_name) :=
    if String.eqb platform "linux" || String.eqb platform "darwin"
    then ([], None)
    else find_exe _spice_exe_win_paths in
  if (List.length spice_exe =? 0)%nat then ([], None)
  else (spice_exe, process_name).

Definition spice_exe : list string := fst spice_exe_process_name.
Definition process_name : option string := snd spice_exe_process_name.

End Discovery.

Section Run.

(** What [run] hands over to: [run_function], imported from
    [sim.simulator], and the path of the log file,
    [Path(netlist_file).with_suffix('.log').as_posix()]. *)
Variable Timeout : Type.
Variable Result : Type.
Variable run_function : list string -> Timeout -> Result.
Variable log_path : string -> string.

(** How a call of [run] ends: with the result of [run_function], or
    with SpiceSimulatorError and its message. *)
Inductive run_outcome : Type :=
| Ran (r : Result)
| SpiceSimulatorError (message : string).

(** [Qspice.run], for the value [spice_exe] of the class attribute. *)
Definition run (spice_exe : list string) (netlist_file : string)
    (cmd_line_switches : list string) (timeout : Timeout) : run_outcome :=
  match spice_exe with
  | [] => SpiceSimulatorError "Simulator executable not found."
  | _ =>
      let log_file := log_path netlist_file in
      let cmd_run :=
        (spice_exe ++ ["-o"; log_file] ++ [netlist_file]
         ++ cmd_line_switches)%list in
      Ran (run_function cmd_run timeout)
  end.

End Run.

End Qspice.

(* ================================================================== *)
(** * The vocabulary of the properties *)
(* ================================================================== *)

(** The six symbolic alignment tokens of the file format. *)
Definition alignment_tokens : list string :=
  ["Left"; "Center"; "Right"; "VTop"; "VCenter"; "VBottom"].

(** Decoding a token into a Text and encoding the Text again. *)
Definition align_roundtrip (t : Text) (token : string) : string :=
  asc_text_align_get (asc_text_align_set t token).

(** The message of the error for a reference that is not in the map. *)
Definition msg_not_found (ref : string) : string :=
  "Component " ++ ref ++ " not found in ASC file".

(** The message of the error for a component without a Value. *)
Definition msg_no_value (ref : string) : string :=
  "Component " ++ ref ++ " does not have a Value attribute".

(** The value attribute a reference leads to, if any. *)
Definition component_value (ref : string) (self : AscEditor) : option AttrVal :=
  match Dict.get ref (_components self) with
  | Some c => Dict.get "Value" (attributes c)
  | None => None
  end.

(** The two failures of a value lookup raise errors of different
    kinds: what the specification asks of the editor [self], for an
    absent reference and a reference without a Value. *)
Definition value_errors_distinct (self : AscEditor) (absent no_value : string)
  : Prop :=
  forall e1 e2 : exn,
    get_component_value absent self = Raises e1 ->
    get_component_value no_value self = Raises e2 ->
    kind e1 <> kind e2.

(** The character [c] is one of the characters of [s]. *)
Fixpoint char_in (c : ascii) (s : string) : bool :=
  match s with
  | EmptyString => false
  | String d r => Ascii.eqb c d || char_in c r
  end.

(** The first character of the reference [k] is one of the characters of
    [prefixes]. *)
Definition first_char_in (prefixes k : string) : bool :=
  match k with
  | String c _ => char_in c prefixes
  | EmptyString => false
  end.

Definition list_min (d : Z) (l : list Z) : Z := fold_right Z.min d l.
Definition list_max (d : Z) (l : list Z) : Z := fold_right Z.max d l.

(** The x-coordinates of a model: both endpoints of every wire, every
    flag, every directive, every component. *)
Definition model_xs (self : AscEditor) : list Z :=
  (flat_map (fun w => [X (V1 w); X (V2 w)]) (_wires self)
   ++ map (fun t => X (coord t)) (_labels self)
   ++ map (fun t => X (coord t)) (_directives self)
   ++ map (fun c => X (position c)) (Dict.values (_components self)))%list.

(** The y-coordinates of a model, likewise. *)
Definition model_ys (self : AscEditor) : list Z :=
  (flat_map (fun w => [Y (V1 w); Y (V2 w)]) (_wires self)
   ++ map (fun t => Y (coord t)) (_labels self)
   ++ map (fun t => Y (coord t)) (_directives self)
   ++ map (fun c => Y (position c)) (Dict.values (_components self)))%list.

(** The y-coordinates [_get_text_space] reads: for the second endpoint
    of a wire it reads [X]. *)
Definition model_ys_read (self : AscEditor) : list Z :=
  (flat_map (fun w => [Y (V1 w); X (V2 w)]) (_wires self)
   ++ map (fun t => Y (coord t)) (_labels self)
   ++ map (fun t => Y (coord t)) (_directives self)
   ++ map (fun c => Y (position c)) (Dict.values (_components self)))%list.

(** The free-space point in the words of the specification: the bounding
    box over the sheet origin and the coordinates of the model, its
    minimum x and its maximum y plus 24. *)
Definition text_space_spec (origin : Point) (self : AscEditor) : Z * Z :=
  (list_min (X origin) (model_xs self),
   list_max (Y origin) (model_ys self) + 24).

(** The sheet origin as [_get_text_space] reads it: the second and
    third fields of the sheet text. *)
Definition sheet_origin (self : AscEditor) : outcome Point :=
  fields <- sheet_split (sheet self) ;;
  '(_, x, y) <- unpack3 fields ;;
  x <- PyStr.int x ;;
  y <- PyStr.int y ;;
  Returns (mkPoint x y).

(** The string starts with a character that is not whitespace. *)
Definition starts_nonspace (s : string) : bool :=
  match s with
  | String c _ => negb (PyStr.isspace c)
  | EmptyString => false
  end.

(** The invariant of the parser: no reference is the empty string,
    neither in the component map nor in the component being read. *)
Definition refs_nonempty (st : pstate) : Prop :=
  Forall (fun k => k <> EmptyString) (Dict.keys (_components (fst st)))
  /\ match snd st with
     | Some c => reference c <> Some EmptyString
     | None => True
     end.

(** Every character of [s] satisfies [p]. *)
Fixpoint all_chars (p : ascii -> bool) (s : string) : bool :=
  match s with
  | EmptyString => true
  | String c r => p c && all_chars p r
  end.

(** [s] is empty or starts with a character that fails [p]. *)
Definition stops (p : ascii -> bool) (s : string) : bool :=
  match s with
  | EmptyString => true
  | String c _ => negb (p c)
  end.

Definition nonspace (c : ascii) : bool := negb (PyStr.isspace c).

(** The value of the digits [d] read after a number [acc]. *)
Fixpoint uint_acc (acc : Z) (d : Decimal.uint) : Z :=
  match d with
  | Decimal.Nil => acc
  | Decimal.D0 l => uint_acc (10 * acc + 0) l
  | Decimal.D1 l => uint_acc (10 * acc + 1) l
  | Decimal.D2 l => uint_acc (10 * acc + 2) l
  | Decimal.D3 l => uint_acc (10 * acc + 3) l
  | Decimal.D4 l => uint_acc (10 * acc + 4) l
  | Decimal.D5 l => uint_acc (10 * acc + 5) l
  | Decimal.D6 l => uint_acc (10 * acc + 6) l
  | Decimal.D7 l => uint_acc (10 * acc + 7) l
  | Decimal.D8 l => uint_acc (10 * acc + 8) l
  | Decimal.D9 l => uint_acc (10 * acc + 9) l
  end.

(** The digits of a number that is not negative. *)
Definition digits_of (n : N) : string := PyStr.of_int (Z.of_N n).

(** The line [save_netlist] writes for a directive at ([x], [y]) with
    the alignment token [al], the magnitude [n], the tag [tag] and the
    text [t]. *)
Definition text_line (x y : Z) (al : string) (n : N) (tag t : string)
  : string :=
  "TEXT " ++ PyStr.of_int x ++ " " ++ PyStr.of_int y ++ " " ++ al ++ " "
  ++ PyStr.of_int (Z.of_N n) ++ " " ++ tag ++ t ++ END_LINE_TERM.

Definition TEXT_alignments : list string := ["Left"; "Right"; "Top"; "Bottom"].

(** The text of a file from its lines. *)
Definition file_of_lines (ls : list string) : string :=
  String.concat "" (map (fun l => l ++ END_LINE_TERM) ls).

(** The first two lines of a schematic file. *)
Definition header : list string := ["Version 4"; "SHEET 1 880 680"].

(** The model of a file that has nothing but the two lines. *)
Definition empty_sheet : AscEditor :=
  mkEditor (VerStr "4") (SheetStr "1 880 680") [] [] [] [].

(** The comment [note] at (10, 50). *)
Definition note : Text :=
  mkText (mkPoint 10 50) "note" (PInt (-2)) HorAlign.LEFT VerAlign.CENTER.

(** A resistor at (100, 200) on a sheet of 880 by 680. *)
Definition one_resistor : AscEditor :=
  mkEditor (VerStr "4") (SheetStr "1 880 680") [] [] []
    [("R1", mkComponent "res" (mkPoint 100 200) R0 (Some "R1") [])].

(** The same with a wire from (96, 160) to (96, 96). *)
Definition resistor_and_wire : AscEditor :=
  set_wires [mkLine (mkPoint 96 160) (mkPoint 96 96)] one_resistor.

(** The keywords .TRAN, .AC, .DC, .OP and the like, of which a model
    holds at most one; here the four named. *)
Definition four_unique (command : string) : bool :=
  existsb (String.eqb command) [".TRAN"; ".AC"; ".DC"; ".OP"].

(* ================================================================== *)
(** * Properties: the alignment codec *)
(* ================================================================== *)

Lemma asc_text_align_set_keeps (t : Text) (a : string) :
  coord (asc_text_align_set t a) = coord t
  /\ text (asc_text_align_set t a) = text t
  /\ size (asc_text_align_set t a) = size t.
Proof.
  unfold asc_text_align_set.
  repeat match goal with |- context [if ?b then _ else _] => destruct b end;
    simpl; auto.
Qed.

(** An alignment token outside the six decodes to the default pair,
    left and bottom. *)
Lemma asc_text_align_set_default (t : Text) (a : string) :
  ~ In a alignment_tokens ->
  textAlignment (asc_text_align_set t a) = HorAlign.LEFT
  /\ verticalAlignment (asc_text_align_set t a) = VerAlign.BOTTOM.
Proof.
  intros Hn. unfold asc_text_align_set.
  repeat match goal with
         | |- context [String.eqb a ?s] =>
             destruct (String.eqb_spec a s) as [->|_];
             [exfalso; apply Hn; simpl; tauto|]
         end.
  simpl. auto.
Qed.

(** Five of the six tokens survive decoding and encoding. *)
Lemma align_roundtrip_five (t : Text) (a : string) :
  In a ["Left"; "Center"; "Right"; "VTop"; "VBottom"] ->
  align_roundtrip t a = a.
Proof.
  simpl. intros [<-|[<-|[<-|[<-|[<-|[]]]]]]; reflexivity.
Qed.

(** What the encoder returns is decoded to the pair it was given:
    on the level of the pair, nothing is lost. *)
Lemma asc_text_align_set_get (t : Text) (a : string) :
  asc_text_align_set t (align_roundtrip t a) = asc_text_align_set t a.
Proof.
  unfold align_roundtrip, asc_text_align_set.
  repeat match goal with |- context [String.eqb a ?s] =>
           destruct (String.eqb a s) end; reflexivity.
Qed.

(** C8. Decoding then encoding an alignment token.  The tokens Left,
    Center, Right, VTop and VBottom come back unchanged.  VCenter does
    not: it decodes to the pair (center, center), the pair of Center, and
    is encoded as Center.  The branch of [asc_text_align_get] that
    returns VCenter is never taken, since it sits under the negation of
    its own test. *)
Theorem align_roundtrip_VCenter (t : Text) :
  align_roundtrip t "VCenter" = "Center"
  /\ align_roundtrip t "VCenter" <> "VCenter"
  /\ (forall u : Text, asc_text_align_get u <> "VCenter")
  /\ align_roundtrip t "Left" = "Left"
  /\ align_roundtrip t "Center" = "Center"
  /\ align_roundtrip t "Right" = "Right"
  /\ align_roundtrip t "VTop" = "VTop"
  /\ align_roundtrip t "VBottom" = "VBottom".
Proof.
  repeat split; try reflexivity; try discriminate.
  intros u. unfold asc_text_align_get.
  destruct (verticalAlignment u), (textAlignment u); discriminate.
Qed.

(* ================================================================== *)
(** * Properties: component values *)
(* ================================================================== *)

Lemma string_app_inv_head (s a b : string) : s ++ a = s ++ b -> a = b.
Proof.
  induction s as [|c s IH]; simpl; intros H; [exact H|].
  injection H as H. auto.
Qed.

Lemma msg_not_found_no_value (ref : string) :
  msg_not_found ref <> msg_no_value ref.
Proof.
  unfold msg_not_found, msg_no_value. intros H.
  apply (string_app_inv_head "Component ") in H.
  apply string_app_inv_head in H. discriminate.
Qed.

(** C7, as amended.  Both failures of [get_component_value] and
    [set_component_value] raise ComponentNotFoundError: the reference
    that is absent from the component map, and the reference whose
    component has no Value attribute.  Only the message tells them
    apart. *)
Theorem value_lookup_errors
    (Number : Type) (format_eng : Number -> string)
    (ref : string) (value : Value Number) (self : AscEditor) :
  component_value ref self = None ->
  let message :=
    if Dict.mem ref (_components self)
    then msg_no_value ref else msg_not_found ref in
  get_component_value ref self = Raises (Exn ComponentNotFoundError message)
  /\ set_component_value Number format_eng ref value self
     = Raises (Exn ComponentNotFoundError message)
  /\ msg_no_value ref <> msg_not_found ref.
Proof.
  unfold component_value, get_component_value, set_component_value,
    get_component_info, Dict.mem.
  intros H. destruct (Dict.get ref (_components self)) as [c|]; simpl.
  - rewrite H. repeat split.
    intros E. symmetry in E. revert E. apply msg_not_found_no_value.
  - repeat split.
    intros E. symmetry in E. revert E. apply msg_not_found_no_value.
Qed.

(* ================================================================== *)
(** * Properties: listing component references *)
(* ================================================================== *)

(** For a needle of one character, the substring test of [in] is a
    membership test. *)
Lemma contains_one_char (c : ascii) (s : string) :
  PyStr.contains (String c EmptyString) s = char_in c s.
Proof.
  induction s as [|d r IH]; simpl; [reflexivity|].
  rewrite IH. destruct r; rewrite andb_true_r; reflexivity.
Qed.

Lemma keys_with_prefix_filter (prefixes : string) (ks : list string) :
  Forall (fun k => k <> EmptyString) ks ->
  keys_with_prefix prefixes ks = Returns (filter (first_char_in prefixes) ks).
Proof.
  induction 1 as [|k ks Hk _ IH]; simpl; [reflexivity|].
  destruct k as [|c k]; [congruence|]. simpl.
  rewrite IH. simpl. rewrite contains_one_char. reflexivity.
Qed.

(** C10. [get_components] with the argument [*] returns every
    reference; with any other string it returns, in the order of the
    component map, the references whose first character is one of the
    characters of the argument.  The editor it returns is the one it was
    given.  References are not empty: the parser stores none that is. *)
Theorem get_components_spec (prefixes : string) (self : AscEditor) :
  Forall (fun k => k <> EmptyString) (Dict.keys (_components self)) ->
  get_components prefixes self
  = Returns (if String.eqb prefixes "*"
             then Dict.keys (_components self)
             else filter (first_char_in prefixes)
                    (Dict.keys (_components self)),
             self).
Proof.
  intros H. unfold get_components.
  destruct (String.eqb prefixes "*"); [reflexivity|].
  rewrite (keys_with_prefix_filter _ _ H). reflexivity.
Qed.

(* ================================================================== *)
(** * Properties: the free-space heuristic *)
(* ================================================================== *)

Lemma list_min_acc (a d : Z) (l : list Z) :
  list_min (Z.min d a) l = Z.min a (list_min d l).
Proof. induction l as [|b l IH]; simpl; [lia|]. rewrite IH. lia. Qed.

Lemma list_max_acc (a d : Z) (l : list Z) :
  list_max (Z.max d a) l = Z.max a (list_max d l).
Proof. induction l as [|b l IH]; simpl; [lia|]. rewrite IH. lia. Qed.

Lemma list_min_app (d : Z) (l1 l2 : list Z) :
  list_min (list_min d l1) l2 = list_min d (l1 ++ l2).
Proof.
  induction l1 as [|a l1 IH]; simpl; [reflexivity|].
  rewrite <- IH, (Z.min_comm a), list_min_acc. reflexivity.
Qed.

Lemma list_max_app (d : Z) (l1 l2 : list Z) :
  list_max (list_max d l1) l2 = list_max d (l1 ++ l2).
Proof.
  induction l1 as [|a l1 IH]; simpl; [reflexivity|].
  rewrite <- IH, (Z.max_comm a), list_max_acc. reflexivity.
Qed.

(** One loop of [_get_text_space] over points given by [fx] and [fy]. *)
Lemma fold_bbox_point {A} (fx fy : A -> Z) (l : list A) (b : bbox) :
  let b' := fold_left (fun b a => bbox_point b (fx a) (fy a)) l b in
  min_x b' = list_min (min_x b) (map fx l)
  /\ max_y b' = list_max (max_y b) (map fy l).
Proof.
  revert b. induction l as [|a l IH]; intros b; simpl; [auto|].
  destruct (IH (bbox_point b (fx a) (fy a))) as [Hx Hy].
  simpl in *. rewrite Hx, Hy. simpl.
  rewrite list_min_acc, list_max_acc. auto.
Qed.

(** The loop over the wires. *)
Lemma fold_bbox_wire (l : list Line) (b : bbox) :
  let b' := fold_left bbox_wire l b in
  min_x b' = list_min (min_x b) (flat_map (fun w => [X (V1 w); X (V2 w)]) l)
  /\ max_y b' = list_max (max_y b) (flat_map (fun w => [Y (V1 w); X (V2 w)]) l).
Proof.
  revert b. induction l as [|w l IH]; intros b; simpl; [auto|].
  destruct (IH (bbox_wire b w)) as [Hx Hy].
  simpl in *. rewrite Hx, Hy. simpl.
  rewrite list_min_acc, list_max_acc. split; lia.
Qed.

Lemma fold_bbox_text (l : list Text) (b : bbox) :
  min_x (fold_left bbox_text l b)
  = list_min (min_x b) (map (fun t => X (coord t)) l)
  /\ max_y (fold_left bbox_text l b)
     = list_max (max_y b) (map (fun t => Y (coord t)) l).
Proof.
  exact (fold_bbox_point (fun t => X (coord t)) (fun t => Y (coord t)) l b).
Qed.

Lemma fold_bbox_component (l : list SchematicComponent) (b : bbox) :
  min_x (fold_left bbox_component l b)
  = list_min (min_x b) (map (fun c => X (position c)) l)
  /\ max_y (fold_left bbox_component l b)
     = list_max (max_y b) (map (fun c => Y (position c)) l).
Proof.
  exact (fold_bbox_point (fun c => X (position c))
           (fun c => Y (position c)) l b).
Qed.

(** What [_get_text_space] returns, for every model whose sheet text
    it can read. *)
Lemma _get_text_space_eq (self : AscEditor) (origin : Point) :
  sheet_origin self = Returns origin ->
  _get_text_space self
  = Returns (list_min (Z.min 100000 (X origin)) (model_xs self),
             list_max (-100000) (model_ys_read self) + 24).
Proof.
  unfold sheet_origin, _get_text_space.
  destruct (sheet_split (sheet self)) as [fields|]; simpl; [|discriminate].
  destruct (unpack3 fields) as [[[tag xs] ys]|]; simpl; [|discriminate].
  destruct (PyStr.int xs) as [x|]; simpl; [|discriminate].
  destruct (PyStr.int ys) as [y|]; simpl; [|discriminate].
  intros [= <-]. simpl.
  unfold model_xs, model_ys_read.
  set (b0 := mkBBox (Z.min 100000 x) (-100000) (Z.min 100000 y) (-100000)).
  set (b1 := fold_left bbox_wire (_wires self) b0).
  set (b2 := fold_left bbox_text (_labels self) b1).
  set (b3 := fold_left bbox_text (_directives self) b2).
  destruct (fold_bbox_component (Dict.values (_components self)) b3) as [-> ->].
  destruct (fold_bbox_text (_directives self) b2) as [Hx3 Hy3].
  destruct (fold_bbox_text (_labels self) b1) as [Hx2 Hy2].
  destruct (fold_bbox_wire (_wires self) b0) as [Hx1 Hy1].
  fold b1 in Hx1, Hy1. fold b2 in Hx2, Hy2. fold b3 in Hx3, Hy3.
  rewrite Hx3, Hy3, Hx2, Hy2, Hx1, Hy1.
  rewrite !list_min_app, !list_max_app. reflexivity.
Qed.

Lemma model_ys_read_eq (self : AscEditor) :
  Forall (fun w => Y (V2 w) = X (V2 w)) (_wires self) ->
  model_ys_read self = model_ys self.
Proof.
  unfold model_ys_read, model_ys. intros H. f_equal.
  induction H as [|w l Hw _ IH]; simpl; [reflexivity|].
  rewrite IH, Hw. reflexivity.
Qed.

(** C5, as amended.  When the sheet text has three fields whose second
    and third are integers [x0] and [y0], [_get_text_space] returns
    (min_x, max_y + 24), where min_x is the least of 100000, [x0] and
    the x-coordinates of the wire endpoints, flags, directives and
    components, and max_y is the greatest of -100000 and their
    y-coordinates.  The sheet's [y0] takes no part in max_y.  The
    statement is for models in which the second endpoint of every wire
    has equal coordinates, which includes the models without wires. *)
Theorem _get_text_space_amended (self : AscEditor) (origin : Point) :
  sheet_origin self = Returns origin ->
  Forall (fun w => Y (V2 w) = X (V2 w)) (_wires self) ->
  _get_text_space self
  = Returns (list_min (Z.min 100000 (X origin)) (model_xs self),
             list_max (-100000) (model_ys self) + 24).
Proof.
  intros Ho Hw. rewrite (_get_text_space_eq self origin Ho).
  rewrite (model_ys_read_eq self Hw). reflexivity.
Qed.

(* ================================================================== *)
(** * Properties: strings and integers in text *)
(* ================================================================== *)

Lemma startswith_app (p s : string) :
  PyStr.startswith p s = true -> exists r, s = p ++ r.
Proof.
  revert s. induction p as [|a p IH]; intros s; simpl.
  - exists s. reflexivity.
  - destruct s as [|b s]; [discriminate|].
    intros [Hab Hp]%andb_prop.
    apply Ascii.eqb_eq in Hab. subst b.
    destruct (IH s Hp) as [r ->]. exists r. reflexivity.
Qed.

Lemma all_chars_app (p : ascii -> bool) (a b : string) :
  all_chars p (a ++ b) = all_chars p a && all_chars p b.
Proof.
  induction a as [|c a IH]; simpl; [reflexivity|].
  rewrite IH, andb_assoc. reflexivity.
Qed.

Lemma isdigit_nonspace (c : ascii) :
  PyStr.isdigit c = true -> nonspace c = true.
Proof.
  destruct c as [[] [] [] [] [] [] [] []]; try discriminate; reflexivity.
Qed.

Lemma all_digits_nonspace (s : string) :
  all_chars PyStr.isdigit s = true -> all_chars nonspace s = true.
Proof.
  induction s as [|c s IH]; simpl; [reflexivity|].
  intros [Hc Hs]%andb_prop. rewrite (isdigit_nonspace c Hc). auto.
Qed.

Lemma string_of_uint_digits (d : Decimal.uint) :
  all_chars PyStr.isdigit (NilEmpty.string_of_uint d) = true.
Proof. induction d; simpl; auto. Qed.

Lemma string_of_uint_nonempty (d : Decimal.uint) :
  d <> Decimal.Nil -> NilEmpty.string_of_uint d <> EmptyString.
Proof. destruct d; simpl; congruence. Qed.

Lemma digits_of_eq (n : N) :
  exists d,
    d <> Decimal.Nil
    /\ digits_of n = NilEmpty.string_of_uint d
    /\ Pos.of_uint d = n.
Proof.
  destruct n as [|p]; unfold digits_of, PyStr.of_int; simpl.
  - exists (Decimal.D0 Decimal.Nil). repeat split. discriminate.
  - exists (Pos.to_uint p).
    pose proof (Unsigned.to_uint_nonnil p) as Hn.
    repeat split; [exact Hn| |apply Unsigned.of_to].
    destruct (Pos.to_uint p); try reflexivity. congruence.
Qed.

Lemma digits_of_digits (n : N) :
  all_chars PyStr.isdigit (digits_of n) = true.
Proof.
  destruct (digits_of_eq n) as (d & _ & -> & _). apply string_of_uint_digits.
Qed.

Lemma digits_of_nonempty (n : N) : digits_of n <> EmptyString.
Proof.
  destruct (digits_of_eq n) as (d & Hd & -> & _).
  apply string_of_uint_nonempty. exact Hd.
Qed.

(** [str] of an integer is its sign and the digits of its magnitude. *)
Lemma of_int_sign (z : Z) :
  PyStr.of_int z
  = (if z <? 0 then "-" else "") ++ digits_of (Z.abs_N z).
Proof. destruct z; reflexivity. Qed.

Lemma of_int_nonspace (z : Z) : all_chars nonspace (PyStr.of_int z) = true.
Proof.
  rewrite of_int_sign, all_chars_app.
  rewrite (all_digits_nonspace _ (digits_of_digits _)).
  destruct (z <? 0); reflexivity.
Qed.

Lemma of_int_nonempty (z : Z) : PyStr.of_int z <> EmptyString.
Proof.
  rewrite of_int_sign. destruct (z <? 0); simpl; [discriminate|].
  apply digits_of_nonempty.
Qed.

Lemma uint_acc_pos (d : Decimal.uint) :
  forall acc : positive,
    uint_acc (Z.pos acc) d = Z.pos (Pos.of_uint_acc d acc).
Proof.
  induction d; intros acc; cbn [uint_acc Pos.of_uint_acc];
    try reflexivity;
    match goal with
    | |- uint_acc ?a _ = Z.pos (Pos.of_uint_acc _ ?b) =>
        replace a with (Z.pos b) by lia; apply IHd
    end.
Qed.

Lemma uint_acc_zero (d : Decimal.uint) :
  uint_acc 0 d = Z.of_N (Pos.of_uint d).
Proof.
  induction d; cbn [uint_acc Pos.of_uint]; try reflexivity;
    try exact IHd;
    match goal with
    | |- uint_acc ?a _ = Z.of_N (N.pos (Pos.of_uint_acc _ ?b)) =>
        change a with (Z.pos b); apply uint_acc_pos
    end.
Qed.

Lemma int_digits_uint (d : Decimal.uint) :
  forall acc : Z,
    PyStr.int_digits acc true (NilEmpty.string_of_uint d)
    = Some (uint_acc acc d).
Proof.
  induction d; intros acc;
    cbn [NilEmpty.string_of_uint PyStr.int_digits uint_acc];
    try reflexivity; apply IHd.
Qed.

Lemma int_digits_uint_start (d : Decimal.uint) (acc : Z) :
  d <> Decimal.Nil ->
  PyStr.int_digits acc false (NilEmpty.string_of_uint d)
  = Some (uint_acc acc d).
Proof.
  destruct d; [congruence|..]; intros _;
    cbn [NilEmpty.string_of_uint PyStr.int_digits uint_acc];
    apply int_digits_uint.
Qed.

Lemma int_digits_digits_of (n : N) :
  PyStr.int_digits 0 false (digits_of n) = Some (Z.of_N n).
Proof.
  destruct (digits_of_eq n) as (d & Hd & -> & <-).
  rewrite (int_digits_uint_start d 0 Hd), uint_acc_zero. reflexivity.
Qed.

Lemma lstrip_stops (s : string) :
  stops PyStr.isspace s = true -> PyStr.lstrip s = s.
Proof.
  destruct s as [|c r]; simpl; [reflexivity|].
  intros Hc%negb_true_iff. rewrite Hc. reflexivity.
Qed.

Lemma rstrip_nonspace (s : string) :
  all_chars nonspace s = true -> PyStr.rstrip s = s.
Proof.
  induction s as [|c r IH]; simpl; [reflexivity|].
  intros [Hc Hr]%andb_prop. rewrite (IH Hr).
  apply negb_true_iff in Hc. rewrite Hc. destruct r; reflexivity.
Qed.

Lemma all_nonspace_stops (s : string) :
  all_chars nonspace s = true -> stops PyStr.isspace s = true.
Proof.
  destruct s as [|c r]; simpl; [reflexivity|].
  intros [Hc _]%andb_prop. exact Hc.
Qed.

Lemma strip_nonspace (s : string) :
  all_chars nonspace s = true -> PyStr.strip s = s.
Proof.
  intros H. unfold PyStr.strip.
  rewrite (lstrip_stops s (all_nonspace_stops s H)).
  apply rstrip_nonspace. exact H.
Qed.

Lemma isdigit_not_sign (c : ascii) :
  PyStr.isdigit c = true ->
  Ascii.eqb c "-"%char = false /\ Ascii.eqb c "+"%char = false.
Proof.
  destruct c as [[] [] [] [] [] [] [] []]; try discriminate; split;
    reflexivity.
Qed.

(** [int(str(z))] is [z]. *)
Lemma int_of_int (z : Z) : PyStr.int (PyStr.of_int z) = Returns z.
Proof.
  unfold PyStr.int. rewrite (strip_nonspace _ (of_int_nonspace z)).
  rewrite of_int_sign.
  pose proof (int_digits_digits_of (Z.abs_N z)) as Hv.
  pose proof (digits_of_digits (Z.abs_N z)) as Hd.
  pose proof (digits_of_nonempty (Z.abs_N z)) as Hn.
  destruct (Z.ltb_spec z 0) as [Hz|Hz]; cbn [append].
  - cbn [Ascii.eqb Bool.eqb]. rewrite Hv. cbn [option_map].
    f_equal. rewrite N2Z.inj_abs_N. lia.
  - destruct (digits_of (Z.abs_N z)) as [|c d]; [congruence|].
    cbn [all_chars] in Hd. apply andb_prop in Hd. destruct Hd as [Hc _].
    destruct (isdigit_not_sign c Hc) as [-> ->]. rewrite Hv.
    f_equal. rewrite N2Z.inj_abs_N. lia.
Qed.

(** The longest prefix of characters in [p], when the string is such a
    prefix followed by something that does not continue it. *)
Lemma span_app (p : ascii -> bool) (a r : string) :
  all_chars p a = true -> stops p r = true ->
  Re.span p (a ++ r) = (a, r).
Proof.
  intros Ha Hr. induction a as [|c a IH]; cbn [append].
  - destruct r as [|c r]; [reflexivity|]. cbn [stops] in Hr.
    apply negb_true_iff in Hr. cbn [Re.span]. rewrite Hr. reflexivity.
  - cbn [all_chars] in Ha. apply andb_prop in Ha. destruct Ha as [Hc Ha].
    cbn [Re.span]. rewrite Hc, (IH Ha). reflexivity.
Qed.

Lemma many1_app (p : ascii -> bool) (a r : string) :
  a <> EmptyString -> all_chars p a = true -> stops p r = true ->
  Re.many1 p (a ++ r) = Some (a, r).
Proof.
  intros Hn Ha Hr. unfold Re.many1. rewrite (span_app p a r Ha Hr).
  destruct a; [congruence|reflexivity].
Qed.

(** The pattern of a signed number reads what [str] wrote, when what
    follows is not a digit. *)
Lemma signed_digits_of_int (z : Z) (r : string) :
  stops PyStr.isdigit r = true ->
  Re.signed_digits (PyStr.of_int z ++ r) = Some (PyStr.of_int z, r).
Proof.
  intros Hr. rewrite of_int_sign.
  pose proof (digits_of_digits (Z.abs_N z)) as Hd.
  pose proof (digits_of_nonempty (Z.abs_N z)) as Hn.
  pose proof (many1_app _ _ r Hn Hd Hr) as Hm.
  destruct (z <? 0); cbn [append Re.signed_digits].
  - cbn [Ascii.eqb Bool.eqb]. rewrite Hm. reflexivity.
  - destruct (digits_of (Z.abs_N z)) as [|c d] eqn:E; [congruence|].
    cbn [all_chars] in Hd. apply andb_prop in Hd. destruct Hd as [Hc _].
    cbn [append Re.signed_digits].
    destruct (isdigit_not_sign c Hc) as [-> _]. exact Hm.
Qed.

Lemma of_int_stops_space (z : Z) (r : string) :
  stops PyStr.isspace (PyStr.of_int z ++ r) = true.
Proof.
  pose proof (of_int_nonspace z) as H. pose proof (of_int_nonempty z) as Hn.
  destruct (PyStr.of_int z) as [|c s]; [congruence|].
  simpl in *. apply andb_prop in H. destruct H as [H _]. exact H.
Qed.

Lemma string_app_assoc (a b c : string) : (a ++ b) ++ c = a ++ b ++ c.
Proof. induction a as [|x a IH]; simpl; [reflexivity|]. rewrite IH. auto. Qed.

Lemma string_app_nonempty (w : string) (c : ascii) :
  w ++ String c EmptyString <> EmptyString.
Proof. destruct w; discriminate. Qed.

(* ================================================================== *)
(** * Properties: splitting a line into words *)
(* ================================================================== *)

Lemma starts_nonspace_app (w s : string) :
  starts_nonspace w = true -> starts_nonspace (w ++ s) = true.
Proof. destruct w; simpl; [discriminate|auto]. Qed.

(** Every piece [split] returns starts with a character that is not
    whitespace. *)
Lemma split_go_nonspace (s : string) :
  forall (k : nat) (w : string),
    w = EmptyString \/ starts_nonspace w = true ->
    Forall (fun x => starts_nonspace x = true) (PyStr.split_go k w s).
Proof.
  induction s as [|c r IH]; intros k w Hw; simpl.
  - unfold PyStr.emit. destruct w; simpl; [constructor|].
    destruct Hw as [Hw|Hw]; [discriminate|]. repeat constructor. exact Hw.
  - destruct (PyStr.isspace c) eqn:Hc.
    + destruct w as [|a w]; simpl.
      * apply IH. auto.
      * destruct Hw as [Hw|Hw]; [discriminate|].
        constructor; [exact Hw|]. apply IH. auto.
    + assert (Hgo : Forall (fun x => starts_nonspace x = true)
                      (PyStr.split_go k (w ++ String c EmptyString) r)).
      { apply IH. right. destruct Hw as [->|Hw]; simpl.
        - rewrite Hc. reflexivity.
        - apply starts_nonspace_app. exact Hw. }
      destruct k; [|exact Hgo].
      destruct w; simpl; [|exact Hgo].
      repeat constructor. simpl. rewrite Hc. reflexivity.
Qed.

Lemma rstrip_nonempty (c : ascii) (r : string) :
  PyStr.isspace c = false -> PyStr.rstrip (String c r) <> EmptyString.
Proof.
  intros Hc. simpl. destruct (PyStr.rstrip r); [rewrite Hc|]; discriminate.
Qed.

Lemma strip_nonempty (s : string) :
  starts_nonspace s = true -> PyStr.strip s <> EmptyString.
Proof.
  destruct s as [|c r]; simpl; [discriminate|].
  intros Hc%negb_true_iff. unfold PyStr.strip.
  cbn [PyStr.lstrip]. rewrite Hc. apply rstrip_nonempty. exact Hc.
Qed.

(** Reading a word: the characters that are not whitespace join the
    word being read. *)
Lemma split_go_word (u : string) :
  forall (k : nat) (w s : string),
    all_chars nonspace u = true ->
    k <> O \/ w <> EmptyString ->
    PyStr.split_go k w (u ++ s) = PyStr.split_go k (w ++ u) s.
Proof.
  induction u as [|c u IH]; intros k w s Hu Hk.
  - cbn [append]. replace (w ++ "") with w; [reflexivity|].
    clear. induction w; simpl; congruence.
  - cbn [all_chars] in Hu. apply andb_prop in Hu. destruct Hu as [Hc Hu].
    apply negb_true_iff in Hc.
    cbn [append PyStr.split_go]. rewrite Hc.
    replace (w ++ String c u) with ((w ++ String c EmptyString) ++ u)
      by (rewrite string_app_assoc; reflexivity).
    rewrite <- IH by (auto using string_app_nonempty).
    destruct k; [|reflexivity].
    destruct w; [|reflexivity]. destruct Hk; congruence.
Qed.

(** A word followed by whitespace is one piece, when a split is left. *)
Lemma split_go_field (u : string) (k : nat) (c : ascii) (s : string) :
  all_chars nonspace u = true -> u <> EmptyString ->
  PyStr.isspace c = true ->
  PyStr.split_go (S k) EmptyString (u ++ String c s)
  = u :: PyStr.split_go k EmptyString s.
Proof.
  intros Hu Hn Hc. rewrite split_go_word by auto.
  cbn [append PyStr.split_go]. rewrite Hc.
  destruct u; [congruence|reflexivity].
Qed.

(** With no split left, what remains is one piece. *)
Lemma split_go_rest (s : string) :
  starts_nonspace s = true ->
  PyStr.split_go 0 EmptyString s = [s].
Proof.
  destruct s as [|c s]; [discriminate|]. cbn [starts_nonspace].
  intros Hc%negb_true_iff. cbn [PyStr.split_go]. rewrite Hc. reflexivity.
Qed.

Lemma split_FLAG (k : nat) (r : string) :
  PyStr.split_go (S k) EmptyString ("FLAG " ++ r)
  = "FLAG" :: PyStr.split_go k EmptyString r.
Proof. reflexivity. Qed.

(** The pieces of a net-flag line whose label has a space in it. *)
Lemma split_flag_two_words (x y : Z) (word rest : string) :
  all_chars nonspace word = true -> word <> EmptyString ->
  starts_nonspace rest = true ->
  PyStr.split_max 4
    ("FLAG " ++ PyStr.of_int x ++ " " ++ PyStr.of_int y ++ " " ++ word
     ++ " " ++ rest)
  = ["FLAG"; PyStr.of_int x; PyStr.of_int y; word; rest].
Proof.
  intros Hw Hn Hr. unfold PyStr.split_max. rewrite split_FLAG.
  change (" " ++ ?s) with (String " " s).
  rewrite split_go_field
    by (auto using of_int_nonspace, of_int_nonempty).
  change (" " ++ ?s) with (String " " s).
  rewrite split_go_field
    by (auto using of_int_nonspace, of_int_nonempty).
  change (" " ++ ?s) with (String " " s).
  rewrite split_go_field by auto.
  rewrite split_go_rest by exact Hr. reflexivity.
Qed.


(* ================================================================== *)
(** * Properties: the TEXT pattern on the lines the serializer writes *)
(* ================================================================== *)

Lemma lit_ci_TEXT (r : string) :
  Re.lit_ci "TEXT " ("TEXT " ++ r) = Some ("TEXT ", r).
Proof. reflexivity. Qed.

Lemma one_space (r : string) :
  stops PyStr.isspace r = true ->
  Re.many1 PyStr.isspace (" " ++ r) = Some (" ", r).
Proof. intros H. apply many1_app; [discriminate|reflexivity|exact H]. Qed.

(** The pattern up to the alignment: what is left to match is the
    alignment token and what follows it. *)
Lemma TEXT_REGEX_prefix (x y : Z) (rest : string) :
  stops PyStr.isspace rest = true ->
  Re.TEXT_REGEX_match
    ("TEXT " ++ PyStr.of_int x ++ " " ++ PyStr.of_int y ++ " " ++ rest)
  = match Re.alt_ci TEXT_alignments rest with
    | Some (al, String c r) =>
        if PyStr.isspace c then
          Re.opt_bind (Re.many1 PyStr.isdigit r) (fun '(sz, r) =>
          let '(_, r) := Re.span PyStr.isspace r in
          match r with
          | String t r =>
              if Ascii.eqb t "!"%char || Ascii.eqb t ";"%char then
                Some (Re.TextMatch (PyStr.of_int x) (PyStr.of_int y) al sz t
                        (fst (Re.span Re.not_newline r)))
              else None
          | EmptyString => None
          end)
        else None
    | _ => None
    end.
Proof.
  intros Hrest. unfold Re.TEXT_REGEX_match.
  rewrite lit_ci_TEXT. cbn [Re.opt_bind].
  rewrite signed_digits_of_int by reflexivity. cbn [Re.opt_bind].
  rewrite one_space by apply of_int_stops_space. cbn [Re.opt_bind].
  rewrite signed_digits_of_int by reflexivity. cbn [Re.opt_bind].
  rewrite one_space by exact Hrest. cbn [Re.opt_bind].
  fold TEXT_alignments.
  destruct (Re.alt_ci TEXT_alignments rest) as [[al [|c r]]|]; reflexivity.
Qed.

(** The alignment tokens the serializer writes, against the four the
    pattern knows. *)
Lemma alt_ci_written (al r : string) :
  In al ["Left"; "Center"; "Right"; "VTop"; "VBottom"] ->
  Re.alt_ci TEXT_alignments (al ++ r)
  = if String.eqb al "Left" || String.eqb al "Right"
    then Some (al, r) else None.
Proof.
  simpl. intros [<-|[<-|[<-|[<-|[<-|[]]]]]]; reflexivity.
Qed.

Lemma asc_text_align_get_written (t : Text) :
  In (asc_text_align_get t) ["Left"; "Center"; "Right"; "VTop"; "VBottom"].
Proof.
  unfold asc_text_align_get.
  destruct (verticalAlignment t), (textAlignment t); simpl; tauto.
Qed.

(** The pattern on a written line whose tag is [?]: no match. *)
Lemma TEXT_REGEX_question_mark (x y : Z) (al : string) (n : N) (t : string) :
  In al ["Left"; "Center"; "Right"; "VTop"; "VBottom"] ->
  Re.TEXT_REGEX_match (text_line x y al n "?" t) = None.
Proof.
  intros Hal. unfold text_line.
  rewrite TEXT_REGEX_prefix.
  2:{ simpl in Hal. destruct Hal as [<-|[<-|[<-|[<-|[<-|[]]]]]]; reflexivity. }
  rewrite (alt_ci_written al _ Hal).
  destruct (String.eqb al "Left" || String.eqb al "Right"); [|reflexivity].
  cbn [append]. change (PyStr.isspace " ") with true. cbv iota.
  fold (digits_of n).
  rewrite (many1_app PyStr.isdigit (digits_of n)
             (String " " (String "?" (t ++ END_LINE_TERM))));
    [reflexivity|apply digits_of_nonempty|apply digits_of_digits|reflexivity].
Qed.

(** The pattern on a written line whose alignment token is Center, VTop
    or VBottom: no match, whatever the tag. *)
Lemma TEXT_REGEX_other_alignment (x y : Z) (al : string) (n : N)
    (tag t : string) :
  In al ["Center"; "VTop"; "VBottom"] ->
  Re.TEXT_REGEX_match (text_line x y al n tag t) = None.
Proof.
  intros Hal. unfold text_line.
  rewrite TEXT_REGEX_prefix
    by (simpl in Hal; destruct Hal as [<-|[<-|[<-|[]]]]; reflexivity).
  rewrite alt_ci_written by (simpl in *; tauto).
  simpl in Hal. destruct Hal as [<-|[<-|[<-|[]]]]; reflexivity.
Qed.

(** The pattern on a written line whose alignment is Left or Right and
    whose tag is [!] or [;]: the groups are the fields written. *)
Lemma TEXT_REGEX_written (x y : Z) (al : string) (n : N) (tag : ascii)
    (t : string) :
  al = "Left" \/ al = "Right" ->
  tag = "!"%char \/ tag = ";"%char ->
  all_chars Re.not_newline t = true ->
  Re.TEXT_REGEX_match (text_line x y al n (String tag EmptyString) t)
  = Some (Re.TextMatch (PyStr.of_int x) (PyStr.of_int y) al
            (PyStr.of_int (Z.of_N n)) tag t).
Proof.
  intros Hal Htag Ht. unfold text_line.
  rewrite TEXT_REGEX_prefix by (destruct Hal as [->| ->]; reflexivity).
  rewrite alt_ci_written by (destruct Hal as [->| ->]; simpl; tauto).
  replace (String.eqb al "Left" || String.eqb al "Right") with true
    by (destruct Hal as [->| ->]; reflexivity).
  cbn [append]. change (PyStr.isspace " ") with true. cbv iota.
  fold (digits_of n).
  rewrite (many1_app PyStr.isdigit (digits_of n)
             (String " " (String tag (t ++ END_LINE_TERM))));
    [|apply digits_of_nonempty|apply digits_of_digits|reflexivity].
  cbn [Re.opt_bind].
  replace (Re.span PyStr.isspace
             (String " " (String tag (t ++ END_LINE_TERM))))
    with (" ", String tag (t ++ END_LINE_TERM))
    by (destruct Htag as [->| ->]; reflexivity).
  cbv iota.
  replace (Ascii.eqb tag "!" || Ascii.eqb tag ";") with true
    by (destruct Htag as [->| ->]; reflexivity).
  rewrite (span_app Re.not_newline t END_LINE_TERM Ht eq_refl).
  reflexivity.
Qed.

(* ================================================================== *)
(** * Properties: parsing and writing files *)
(* ================================================================== *)

Lemma dict_set_keys {V} (P : string -> Prop) (k : string) (v : V)
    (d : dict V) :
  P k -> Forall P (Dict.keys d) -> Forall P (Dict.keys (Dict.set k v d)).
Proof.
  intros Hk. induction d as [|[k' v'] d IH]; simpl; intros H.
  - repeat constructor. exact Hk.
  - inversion H as [|? ? Hk' Hd]; subst.
    destruct (String.eqb k k'); simpl; constructor; auto.
Qed.

Lemma commit_refs_nonempty (self self' : AscEditor)
    (component : option SchematicComponent) :
  refs_nonempty (self, component) ->
  commit self component = Returns self' ->
  Forall (fun k => k <> EmptyString) (Dict.keys (_components self')).
Proof.
  intros [Hk Hc]. unfold commit. simpl in *.
  destruct component as [c|]; [|intros [= <-]; exact Hk].
  destruct (reference c) as [r|]; [|discriminate].
  intros [= <-]. simpl. apply dict_set_keys; [congruence|exact Hk].
Qed.

Section Files.

Variable default_size : PyVal.
Variable default_textAlignment : HorAlign.t.
Variable default_verticalAlignment : VerAlign.t.
Variable repr_Text : Text -> string.

Local Abbreviation open_file :=
  (AscEditor_new default_size default_textAlignment default_verticalAlignment).
Local Abbreviation read_line :=
  (parse_line default_size default_textAlignment default_verticalAlignment).
Local Abbreviation read_lines :=
  (parse_lines default_size default_textAlignment default_verticalAlignment).
Local Abbreviation read_file :=
  (reset_netlist default_size default_textAlignment default_verticalAlignment).
Local Abbreviation round_trip :=
  (roundtrip default_size default_textAlignment default_verticalAlignment
     repr_Text).

Ltac step H :=
  match type of H with
  | bind ?m _ = Returns _ =>
      let E := fresh "E" in
      destruct m eqn:E; cbn [bind] in H; [|discriminate]
  end.

Lemma parse_line_refs_nonempty (line : string) (st st' : pstate) :
  refs_nonempty st ->
  read_line line st = Returns st' ->
  refs_nonempty st'.
Proof.
  unfold parse_line.
  destruct st as [self component]. intros Hst H.
  assert (Hk := proj1 Hst). assert (Hc := proj2 Hst). simpl in Hk, Hc.
  destruct (PyStr.startswith "SYMBOL" line).
  { step H. destruct a as [[[[tag sym] px] py] rot].
    step H. step H. step H.
    destruct (ASC_ROTATION_DICT rot); [|discriminate].
    injection H as <-. split; simpl; [|discriminate].
    eapply commit_refs_nonempty; eauto. }
  destruct (PyStr.startswith "WINDOW" line).
  { destruct component as [c|]; [|discriminate].
    step H. destruct a as [[[[[tag num] px] py] al] sz].
    step H. step H. injection H as <-. split; simpl; auto. }
  destruct (PyStr.startswith "SYMATTR" line).
  { destruct component as [c|]; [|discriminate].
    step H. destruct a as [[tag ref] txt].
    assert (Ht : starts_nonspace txt = true).
    { unfold unpack3 in E.
      pose proof (split_go_nonspace line 2 EmptyString (or_introl eq_refl))
        as Hs.
      fold (PyStr.split_max 2 line) in Hs.
      destruct (PyStr.split_max 2 line) as [|a [|b [|t [|]]]];
        try discriminate.
      injection E as _ _ <-.
      inversion Hs as [|? ? _ Hs1]; inversion Hs1 as [|? ? _ Hs2];
        inversion Hs2; assumption. }
    destruct (String.eqb ref "InstName"); injection H as <-;
      split; simpl; auto.
    intros [= Hr]. revert Hr. apply strip_nonempty. exact Ht. }
  destruct (PyStr.startswith "TEXT" line).
  { destruct (Re.TEXT_REGEX_match line).
    - step H. step H. step H. injection H as <-. split; simpl; auto.
    - injection H as <-. exact Hst. }
  destruct (PyStr.startswith "WIRE" line).
  { step H. destruct a as [[[[tag x1] y1] x2] y2].
    step H. step H. step H. step H. injection H as <-. split; simpl; auto. }
  destruct (PyStr.startswith "FLAG" line).
  { step H. destruct a as [[[tag px] py] txt].
    step H. step H. injection H as <-. split; simpl; auto. }
  destruct (PyStr.startswith "Version" line).
  { step H. destruct a as [tag ver].
    destruct (String.eqb ver "4"); [|discriminate].
    injection H as <-. split; simpl; auto. }
  destruct (PyStr.startswith "SHEET " line); [|discriminate].
  injection H as <-. split; simpl; auto.
Qed.

Lemma parse_lines_refs_nonempty (lines : list string) :
  forall st st' : pstate,
    refs_nonempty st ->
    parse_lines default_size default_textAlignment default_verticalAlignment
      lines st = Returns st' ->
    refs_nonempty st'.
Proof.
  induction lines as [|line rest IH]; intros st st' Hst H; simpl in H.
  - injection H as <-. exact Hst.
  - step H. eapply IH; [|exact H].
    eapply parse_line_refs_nonempty; eauto.
Qed.

(** No model the parser returns has an empty reference. *)
Lemma reset_netlist_refs_nonempty (lines : list string)
    (self m : AscEditor) :
  reset_netlist default_size default_textAlignment default_verticalAlignment
    lines self = Returns m ->
  Forall (fun k => k <> EmptyString) (Dict.keys (_components m)).
Proof.
  unfold reset_netlist. intros H. step H. destruct a as [self' component].
  eapply commit_refs_nonempty; [|exact H].
  eapply parse_lines_refs_nonempty; [|exact E].
  split; simpl; auto.
Qed.

(** On a model read from a file, [get_components] returns. *)
Corollary get_components_parsed (file prefixes : string) (m : AscEditor) :
  AscEditor_new default_size default_textAlignment default_verticalAlignment
    file = Returns m ->
  get_components prefixes m
  = Returns (if String.eqb prefixes "*"
             then Dict.keys (_components m)
             else filter (first_char_in prefixes) (Dict.keys (_components m)),
             m).
Proof.
  intros H. unfold get_components.
  destruct (String.eqb prefixes "*"); [reflexivity|].
  rewrite keys_with_prefix_filter; [reflexivity|].
  eapply reset_netlist_refs_nonempty. exact H.
Qed.

(** C1. A file with one comment does not survive the round trip: the
    parser reads the comment as a directive of size -2, the serializer
    writes it with the tag [?], and the parser, whose pattern asks for
    [!] or [;], passes over that line.  The model read back has no
    directive. *)
Theorem roundtrip_loses_comment :
  open_file (file_of_lines (header ++ ["TEXT 10 50 Left 2 ;note"]))
  = Returns (set_directives [note] empty_sheet)
  /\ save_netlist repr_Text (set_directives [note] empty_sheet)
     = Returns (file_of_lines (header ++ ["TEXT 10 50 Left 2 ?note"]))
  /\ round_trip (file_of_lines (header ++ ["TEXT 10 50 Left 2 ;note"]))
     = Returns empty_sheet.
Proof. repeat split. Qed.

(** An active directive aligned Top or Bottom is lost as well: it is
    decoded to the default pair, written as VBottom, and the pattern
    of the parser has no VBottom. *)
Lemma roundtrip_loses_top_aligned :
  round_trip (file_of_lines (header ++ ["TEXT 10 80 Top 2 !.tran 1m"]))
  = Returns empty_sheet.
Proof. reflexivity. Qed.

(** A file of wires, flags and components comes back as it was. *)
Example roundtrip_sample :
  let file :=
    file_of_lines
      (header ++
       ["WIRE 96 160 96 128"; "FLAG 96 240 0";
        "SYMBOL res 100 200 R0"; "WINDOW 0 36 40 Left 2";
        "WINDOW 3 36 76 VCenter 2"; "SYMATTR InstName R1";
        "SYMATTR Value 1k"; "TEXT 10 20 Left 2 !.tran 10m"]) in
  exists m, open_file file = Returns m /\ round_trip file = Returns m.
Proof. eexists. split; reflexivity. Qed.

Lemma parse_line_TEXT (r : string) (self : AscEditor)
    (component : option SchematicComponent) :
  read_line ("TEXT " ++ r) (self, component)
  = match Re.TEXT_REGEX_match ("TEXT " ++ r) with
    | Some m =>
        x <- PyStr.int (Re.group_x m) ;;
        y <- PyStr.int (Re.group_y m) ;;
        sz <- PyStr.int (Re.group_size m) ;;
        let sz := if Ascii.eqb (Re.group_type m) "!"%char then sz else - sz in
        let t := Text_new default_size default_textAlignment
                   default_verticalAlignment (mkPoint x y)
                   (PyStr.strip (Re.group_text m)) (Some (PInt sz)) in
        let t := asc_text_align_set t (Re.group_align m) in
        Returns (set_directives (_directives self ++ [t]) self, component)
    | None => Returns (self, component)
    end.
Proof. reflexivity. Qed.

(** A line written with the tag [?] is passed over, whatever the
    directive. *)
Lemma question_mark_line_skipped (x y : Z) (al : string) (n : N)
    (t : string) (st : pstate) :
  In al ["Left"; "Center"; "Right"; "VTop"; "VBottom"] ->
  read_line (text_line x y al n "?" t) st = Returns st.
Proof.
  intros Hal. destruct st as [self component].
  pose proof (TEXT_REGEX_question_mark x y al n t Hal) as Hm.
  unfold text_line in *. rewrite parse_line_TEXT, Hm. reflexivity.
Qed.

(** An active directive aligned left or right about its vertical
    centre is read back from the line written for it, provided its text
    is one line without surrounding whitespace. *)
Lemma active_directive_read_back (d : Text) (n : N) (self : AscEditor)
    (component : option SchematicComponent) :
  size d = PInt (Z.of_N n) ->
  verticalAlignment d = VerAlign.CENTER ->
  textAlignment d <> HorAlign.CENTER ->
  all_chars Re.not_newline (text d) = true ->
  PyStr.strip (text d) = text d ->
  exists line : string,
    directive_line d = Returns line
    /\ read_line line (self, component)
       = Returns (set_directives (_directives self ++ [d]) self, component).
Proof.
  intros Hs Hv Hh Hnl Hst.
  destruct d as [[x y] t sz h v].
  cbn [size verticalAlignment textAlignment text] in *. subst sz v.
  exists (text_line x y (asc_text_align_get
                           (mkText (mkPoint x y) t (PInt (Z.of_N n)) h
                              VerAlign.CENTER)) n "!" t).
  split.
  - unfold directive_line. simpl. destruct n; reflexivity.
  - assert (Hal : asc_text_align_get
                    (mkText (mkPoint x y) t (PInt (Z.of_N n)) h VerAlign.CENTER)
                  = "Left" /\ h = HorAlign.LEFT
                  \/ asc_text_align_get
                       (mkText (mkPoint x y) t (PInt (Z.of_N n)) h
                          VerAlign.CENTER)
                     = "Right" /\ h = HorAlign.RIGHT).
    { destruct h; [left|congruence|right]; split; reflexivity. }
    set (al := asc_text_align_get _) in *.
    pose proof (TEXT_REGEX_written x y al n "!"%char t) as Hm.
    unfold text_line in *. rewrite parse_line_TEXT.
    rewrite Hm; [|tauto|tauto|exact Hnl].
    cbn [Re.group_x Re.group_y Re.group_size Re.group_type Re.group_text
         Re.group_align].
    rewrite !int_of_int. cbn [bind]. rewrite Hst.
    destruct Hal as [[-> ->]|[-> ->]]; reflexivity.
Qed.

(** An active directive with any other alignment is not read back:
    its line names Center, VTop or VBottom, and the parser passes over
    it. *)
Lemma other_directive_skipped (d : Text) (n : N) (st : pstate) :
  size d = PInt (Z.of_N n) ->
  verticalAlignment d <> VerAlign.CENTER
  \/ textAlignment d = HorAlign.CENTER ->
  exists line : string,
    directive_line d = Returns line /\ read_line line st = Returns st.
Proof.
  intros Hs Ha. destruct d as [[x y] t sz h v].
  cbn [size verticalAlignment textAlignment] in *. subst sz.
  set (d := mkText (mkPoint x y) t (PInt (Z.of_N n)) h v).
  exists (text_line x y (asc_text_align_get d) n "!" t). split.
  - unfold directive_line. simpl. destruct n; reflexivity.
  - assert (Hal : In (asc_text_align_get d) ["Center"; "VTop"; "VBottom"]).
    { subst d. unfold asc_text_align_get. simpl.
      destruct v, h; simpl; try tauto; destruct Ha; congruence. }
    pose proof (TEXT_REGEX_other_alignment x y _ n "!" t Hal) as Hm.
    destruct st as [self component].
    unfold text_line in *. rewrite parse_line_TEXT, Hm. reflexivity.
Qed.

(** C2. The line written for a directive of negative size carries the
    magnitude and the tag [?], not [;].  The pattern of the parser, which
    asks for [!] or [;], does not match the line, and the parser passes
    over it: the negative size is not read back. *)
Theorem comment_written_with_question_mark
    (p : Point) (t : string) (n : positive)
    (h : HorAlign.t) (v : VerAlign.t) (st : pstate) :
  let d := mkText p t (PInt (Z.neg n)) h v in
  let line :=
    text_line (X p) (Y p) (asc_text_align_get d) (N.pos n) "?" t in
  directive_line d = Returns line
  /\ Re.TEXT_REGEX_match line = None
  /\ read_line line st = Returns st.
Proof.
  intros d line. split; [reflexivity|].
  pose proof (asc_text_align_get_written d) as Hal. split.
  - apply TEXT_REGEX_question_mark. exact Hal.
  - apply question_mark_line_skipped. exact Hal.
Qed.

(** The comment [note], for one. *)
Example note_written :
  directive_line note = Returns ("TEXT 10 50 Left 2 ?note" ++ END_LINE_TERM).
Proof. reflexivity. Qed.

(** A directive of size 0 or more is written with the tag [!]. *)
Lemma directive_written_with_bang
    (p : Point) (t : string) (n : N) (h : HorAlign.t) (v : VerAlign.t) :
  directive_line (mkText p t (PInt (Z.of_N n)) h v)
  = Returns ("TEXT " ++ PyStr.of_int (X p) ++ " " ++ PyStr.of_int (Y p)
             ++ " " ++ asc_text_align_get (mkText p t (PInt (Z.of_N n)) h v)
             ++ " " ++ PyStr.of_int (Z.of_N n) ++ " !" ++ t
             ++ END_LINE_TERM).
Proof. destruct n; reflexivity. Qed.

(** The two lines the specification gives as examples. *)
Example text_active (st : AscEditor) :
  read_line ("TEXT 10 20 Left 2 !.tran 10m" ++ END_LINE_TERM) (st, None)
  = Returns (set_directives
               (_directives st ++
                [mkText (mkPoint 10 20) ".tran 10m" (PInt 2)
                   HorAlign.LEFT VerAlign.CENTER]) st, None).
Proof. reflexivity. Qed.

Example text_comment (st : AscEditor) :
  read_line ("TEXT 10 20 Left 2 ;note" ++ END_LINE_TERM) (st, None)
  = Returns (set_directives
               (_directives st ++
                [mkText (mkPoint 10 20) "note" (PInt (-2))
                   HorAlign.LEFT VerAlign.CENTER]) st, None).
Proof. reflexivity. Qed.

(** Every TEXT line the pattern does not match is passed over. *)
Lemma unmatched_text_skipped (line : string) (st : pstate) :
  PyStr.startswith "TEXT" line = true ->
  Re.TEXT_REGEX_match line = None ->
  read_line line st = Returns st.
Proof.
  intros Hs Hm. unfold parse_line.
  destruct st as [self component]. rewrite Hm.
  destruct (startswith_app _ _ Hs) as [r ->]. reflexivity.
Qed.

Lemma parse_lines_app (l1 l2 : list string) :
  forall st : pstate,
    read_lines (l1 ++ l2) st
    = (st' <- read_lines l1 st ;; read_lines l2 st').
Proof.
  induction l1 as [|l l1 IH]; intros st; cbn [app parse_lines].
  - reflexivity.
  - destruct (read_line l st) as [st1|e]; cbn [bind]; [apply IH|reflexivity].
Qed.

(** C6. A TEXT record that fails the pattern neither stops the parse
    nor leaves a trace in the model: a file with such a line, wherever
    the line stands, is read as the file without it. *)
Theorem unmatched_text_ignored
    (before after : list string) (line : string) (self : AscEditor) :
  PyStr.startswith "TEXT" line = true ->
  Re.TEXT_REGEX_match line = None ->
  read_file (before ++ line :: after) self = read_file (before ++ after) self.
Proof.
  intros Hs Hm. unfold reset_netlist. rewrite !parse_lines_app.
  destruct (read_lines before (super_reset_netlist self, None)) as [st|e];
    cbn [bind parse_lines]; [|reflexivity].
  rewrite (unmatched_text_skipped line st Hs Hm). reflexivity.
Qed.

(** Two such lines, each in a file of its own. *)
Example malformed_text_skipped :
  open_file (file_of_lines (header ++ ["TEXT 10 20 Center 2 !.tran 1m"]))
  = Returns empty_sheet
  /\ open_file (file_of_lines (header ++ ["TEXT"]))
     = Returns empty_sheet
  /\ open_file (file_of_lines header) = Returns empty_sheet.
Proof. repeat split. Qed.

(** A line that starts with none of the eight keywords stops the
    parse. *)
Lemma unknown_record_raises (line : string) (st : pstate) :
  forallb (fun k => negb (PyStr.startswith k line))
    ["SYMBOL"; "WINDOW"; "SYMATTR"; "TEXT"; "WIRE"; "FLAG"; "Version";
     "SHEET "] = true ->
  read_line line st
  = Raises (Exn NotImplementedError
              ("Primitive not supported for ASC file" ++ END_LINE_TERM
               ++ dquote ++ line ++ dquote)).
Proof.
  intros H. unfold parse_line.
  destruct st as [self component].
  cbn [forallb] in H.
  repeat (apply andb_prop in H;
          let E := fresh "E" in
          destruct H as [E H]; apply negb_true_iff in E).
  repeat match goal with
         | E : PyStr.startswith _ _ = false |- _ => rewrite E; clear E
         end.
  reflexivity.
Qed.

Lemma parse_line_FLAG (r : string) (self : AscEditor)
    (component : option SchematicComponent) :
  read_line ("FLAG " ++ r) (self, component)
  = ('(_, posX, posY, txt) <- unpack4 (PyStr.split_max 4 ("FLAG " ++ r)) ;;
     x <- PyStr.int posX ;;
     y <- PyStr.int posY ;;
     let flag := Text_new default_size default_textAlignment
                   default_verticalAlignment (mkPoint x y) txt None in
     Returns (set_labels (_labels self ++ [flag]) self, component)).
Proof. reflexivity. Qed.


(** C9. A net-flag record whose label has a space in it stops the
    parse: [split(maxsplit=4)] cuts the line into five pieces, and the
    assignment takes four. *)
Theorem flag_label_with_space_raises
    (x y : Z) (word rest : string) (st : pstate) :
  all_chars nonspace word = true ->
  word <> EmptyString ->
  starts_nonspace rest = true ->
  read_line ("FLAG " ++ PyStr.of_int x ++ " " ++ PyStr.of_int y ++ " "
             ++ word ++ " " ++ rest) st
  = Raises (Exn ValueError "").
Proof.
  intros Hw Hn Hr. destruct st as [self component].
  rewrite parse_line_FLAG, split_flag_two_words by assumption.
  reflexivity.
Qed.

(** The label [my label], in a line and in a file. *)
Example flag_my_label (st : pstate) :
  PyStr.split_max 4 ("FLAG 10 20 my label" ++ END_LINE_TERM)
  = ["FLAG"; "10"; "20"; "my"; "label" ++ END_LINE_TERM]
  /\ open_file (file_of_lines (header ++ ["FLAG 10 20 my label"]))
     = Raises (Exn ValueError "").
Proof. split; reflexivity. Qed.

(** A label of one word is read. *)
Example flag_one_word (st : AscEditor) :
  read_line ("FLAG 208 128 out" ++ END_LINE_TERM) (st, None)
  = Returns (set_labels
               (_labels st ++
                [mkText (mkPoint 208 128) "out" default_size
                   default_textAlignment default_verticalAlignment]) st,
             None).
Proof. reflexivity. Qed.

End Files.

(* ================================================================== *)
(** * Properties: parameters and instructions *)
(* ================================================================== *)

Section Directives.

Variable default_size : PyVal.
Variable default_textAlignment : HorAlign.t.
Variable default_verticalAlignment : VerAlign.t.
Variable Number : Type.
Variable format_eng : Number -> string.
Variable str_Number : Number -> string.
Variable Match : Type.
Variable PARAM_search : string -> string -> option Match.
Variable group_value : Match -> option string.
Variable UNIQUE_SIMULATION_DOT_INSTRUCTIONS : string -> bool.

Local Abbreviation set_param :=
  (set_parameter default_size default_textAlignment
     default_verticalAlignment Number format_eng str_Number Match
     PARAM_search group_value).
Local Abbreviation add_instr :=
  (add_instruction UNIQUE_SIMULATION_DOT_INSTRUCTIONS).

(** C3. For a parameter that no directive matches, [set_parameter]
    raises ParameterNotFoundError and appends nothing: it asks
    [get_parameter] for the parameter, and [get_parameter] raises when
    there is none, so the branch that would add the directive is not
    reached. *)
Theorem set_parameter_absent_raises
    (param : string) (value : Value Number) (self : AscEditor) :
  _get_directive Match ".PARAM" (PARAM_search param) self = None ->
  set_param param value self
  = Raises (Exn ParameterNotFoundError
              ("Parameter " ++ param ++ " not found in ASC file")).
Proof.
  intros H. unfold set_parameter, get_parameter.
  rewrite H. reflexivity.
Qed.

(** For a parameter that a directive matches with a value that is not
    empty, [set_parameter] raises AttributeError and replaces nothing:
    it takes the value string [get_parameter] returned for a match
    object. *)
Lemma set_parameter_present_raises
    (param : string) (value : Value Number) (self : AscEditor)
    (m : Match) (d : Text) :
  _get_directive Match ".PARAM" (PARAM_search param) self = Some (m, d) ->
  truthy (group_value m) = true ->
  set_param param value self = Raises (Exn AttributeError "").
Proof.
  intros H Ht. unfold set_parameter, get_parameter.
  rewrite H. simpl. rewrite Ht. reflexivity.
Qed.

(** Whenever [set_parameter] returns, it has appended one directive
    and left the others as they were: no call replaces a value. *)
Lemma set_parameter_returns_appended
    (param : string) (value : Value Number) (self self' : AscEditor) :
  set_param param value self = Returns (tt, self') ->
  exists d : Text, self' = set_directives (_directives self ++ [d]) self.
Proof.
  unfold set_parameter.
  destruct (get_parameter _ _ _ _ _) as [[mv d]|e]; simpl; [|discriminate].
  destruct (truthy mv); simpl; [discriminate|].
  destruct (_get_text_space self) as [[x y]|e]; simpl; [|discriminate].
  intros [= <-]. eexists. reflexivity.
Qed.

(** C4. [add_instruction] raises on every instruction and every
    model, so it neither replaces a unique instruction nor appends a
    new one.  It treats a directive as a pair of a line number and a
    line, and reaches for the lines of the file and for a parser of
    them that the editor does not have. *)
Theorem add_instruction_raises (instruction : string) (self : AscEditor) :
  exists e : exn, add_instr instruction self = Raises e.
Proof.
  unfold add_instruction, append_instruction.
  destruct (first_word_upper (PyStr.strip instruction)) as [command|e];
    cbn [bind]; [|eexists; reflexivity].
  destruct (UNIQUE_SIMULATION_DOT_INSTRUCTIONS command).
  - destruct (_directives self) as [|d ds]; [|eexists; reflexivity].
    destruct (_get_text_space self) as [[x y]|e]; eexists; reflexivity.
  - destruct (PyStr.startswith ".PARAM" command); [eexists; reflexivity|].
    destruct (_get_text_space self) as [[x y]|e]; eexists; reflexivity.
Qed.

(** Adding a unique instruction to a model that has a directive stops
    at the first directive with TypeError. *)
Lemma add_instruction_unique_raises
    (instruction command : string) (self : AscEditor) (d : Text)
    (ds : list Text) :
  first_word_upper (PyStr.strip instruction) = Returns command ->
  UNIQUE_SIMULATION_DOT_INSTRUCTIONS command = true ->
  _directives self = d :: ds ->
  add_instr instruction self = Raises (Exn TypeError "").
Proof.
  intros Hc Hu Hd. unfold add_instruction.
  rewrite Hc. cbn [bind]. rewrite Hu, Hd. reflexivity.
Qed.

(** Adding an instruction that is not unique, or a unique one to a
    model without directives, stops with AttributeError once the
    free-space point is known. *)
Lemma add_instruction_append_raises
    (instruction command : string) (self : AscEditor) (p : Z * Z) :
  first_word_upper (PyStr.strip instruction) = Returns command ->
  (UNIQUE_SIMULATION_DOT_INSTRUCTIONS command = true
   /\ _directives self = []
   \/ UNIQUE_SIMULATION_DOT_INSTRUCTIONS command = false
      /\ PyStr.startswith ".PARAM" command = false) ->
  _get_text_space self = Returns p ->
  add_instr instruction self = Raises (Exn AttributeError "").
Proof.
  intros Hc Hu Hp.  unfold add_instruction, append_instruction.
  rewrite Hc. cbn [bind]. destruct p as [x y].
  destruct Hu as [[-> ->]|[-> ->]]; cbn [bind replace_unique];
    rewrite Hp; reflexivity.
Qed.

End Directives.

(* ================================================================== *)
(** * Instances *)
(* ================================================================== *)

Lemma _get_text_space_amended_witness :
  _get_text_space resistor_and_wire = Returns (96, 224).
Proof.
  apply (_get_text_space_amended resistor_and_wire (mkPoint 880 680)).
  - reflexivity.
  - repeat constructor.
Defined.

(** The free-space point is not the corner of the bounding box that
    includes the sheet origin: below a single resistor at (100, 200) on
    a sheet whose text gives 880 and 680, the bounding box ends at
    y = 680, and the point returned is (100, 224). *)
Lemma text_space_not_bounding_box :
  sheet_origin one_resistor = Returns (mkPoint 880 680)
  /\ _get_text_space one_resistor = Returns (100, 224)
  /\ text_space_spec (mkPoint 880 680) one_resistor = (100, 704)
  /\ _get_text_space one_resistor
     <> Returns (text_space_spec (mkPoint 880 680) one_resistor).
Proof.
  repeat split; try reflexivity. vm_compute. discriminate.
Qed.

(** The second endpoint of a wire enters max_y with its x-coordinate:
    a wire from (0, 0) to (500, 10) moves the point to y = 524. *)
Lemma text_space_reads_wire_x :
  _get_text_space
    (set_wires [mkLine (mkPoint 0 0) (mkPoint 500 10)] one_resistor)
  = Returns (0, 524).
Proof. reflexivity. Qed.

(** Without a SHEET record the sheet is the constructor's pair, and
    [_get_text_space] raises. *)
Lemma text_space_without_sheet :
  _get_text_space (mkEditor (VerInt 4) (SheetTuple 0 0) [] [] [] [])
  = Raises (Exn AttributeError "").
Proof. reflexivity. Qed.

Lemma value_lookup_errors_witness :
  get_component_value "R2" one_resistor
  = Raises (Exn ComponentNotFoundError "Component R2 not found in ASC file")
  /\ set_component_value Z PyStr.of_int "R1" (ValNum Z 11000) one_resistor
     = Raises (Exn ComponentNotFoundError
                 "Component R1 does not have a Value attribute").
Proof.
  split.
  - apply (value_lookup_errors Z PyStr.of_int "R2" (ValStr Z "1k") one_resistor).
    reflexivity.
  - apply (value_lookup_errors Z PyStr.of_int "R1" (ValNum Z 11000) one_resistor).
    reflexivity.
Defined.

(** With one resistor R1 that has no Value, the absent R2 and R1 raise
    errors of one kind. *)
Lemma value_errors_same_kind :
  Dict.mem "R2" (_components one_resistor) = false
  /\ component_value "R1" one_resistor = None
  /\ ~ value_errors_distinct one_resistor "R2" "R1".
Proof.
  repeat split. intros H.
  exact (H _ _ eq_refl eq_refl eq_refl).
Qed.

Lemma get_components_spec_witness :
  get_components "RC" one_resistor = Returns (["R1"], one_resistor).
Proof.
  apply (get_components_spec "RC" one_resistor).
  repeat constructor. discriminate.
Defined.

Lemma set_parameter_absent_raises_witness :
  set_parameter (PInt 1) HorAlign.LEFT VerAlign.CENTER Z PyStr.of_int
    PyStr.of_int unit (fun _ _ => None) (fun _ => None)
    "freq" (ValStr Z "1k") one_resistor
  = Raises (Exn ParameterNotFoundError "Parameter freq not found in ASC file").
Proof.
  apply (set_parameter_absent_raises (PInt 1) HorAlign.LEFT VerAlign.CENTER
           Z PyStr.of_int PyStr.of_int unit (fun _ _ => None) (fun _ => None)
           "freq" (ValStr Z "1k") one_resistor).
  reflexivity.
Defined.

(** Adding [.tran 2m] to a model that holds [.tran 1m]. *)
Example add_instruction_tran_twice :
  add_instruction four_unique ".tran 2m"
    (set_directives
       [mkText (mkPoint 10 20) ".tran 1m" (PInt 2)
          HorAlign.LEFT VerAlign.CENTER] one_resistor)
  = Raises (Exn TypeError "").
Proof. reflexivity. Qed.

(** Adding [.step param x 1 2 1], which is not unique. *)
Example add_instruction_step :
  add_instruction four_unique ".step param x 1 2 1" one_resistor
  = Raises (Exn AttributeError "").
Proof. reflexivity. Qed.

Lemma unmatched_text_ignored_witness :
  reset_netlist (PInt 1) HorAlign.LEFT VerAlign.CENTER
    (["Version 4" ++ END_LINE_TERM; "SHEET 1 880 680" ++ END_LINE_TERM]
     ++ ("TEXT 10 20 Center 2 !.tran 1m" ++ END_LINE_TERM) :: [])
    (mkEditor (VerInt 4) (SheetTuple 0 0) [] [] [] [])
  = reset_netlist (PInt 1) HorAlign.LEFT VerAlign.CENTER
      (["Version 4" ++ END_LINE_TERM; "SHEET 1 880 680" ++ END_LINE_TERM]
       ++ [])
      (mkEditor (VerInt 4) (SheetTuple 0 0) [] [] [] []).
Proof.
  apply (unmatched_text_ignored (PInt 1) HorAlign.LEFT VerAlign.CENTER);
    reflexivity.
Defined.

Lemma flag_label_with_space_raises_witness :
  parse_line (PInt 1) HorAlign.LEFT VerAlign.CENTER
    ("FLAG 10 20 my label" ++ END_LINE_TERM) (empty_sheet, None)
  = Raises (Exn ValueError "").
Proof.
  apply (flag_label_with_space_raises (PInt 1) HorAlign.LEFT VerAlign.CENTER
           10 20 "my" ("label" ++ END_LINE_TERM) (empty_sheet, None));
    [reflexivity|discriminate|reflexivity].
Defined.

(* ================================================================== *)
(** * Further properties: the alignment codec *)
(* ================================================================== *)

(** The pairs a decoded Text can have. *)
Definition decoded_pairs : list (HorAlign.t * VerAlign.t) :=
  [(HorAlign.LEFT, VerAlign.CENTER); (HorAlign.CENTER, VerAlign.CENTER);
   (HorAlign.RIGHT, VerAlign.CENTER); (HorAlign.CENTER, VerAlign.TOP);
   (HorAlign.LEFT, VerAlign.BOTTOM)].

(** Whatever the token, [asc_text_align_set] assigns one of five pairs
    of the nine, and leaves the coordinates, the text and the size of
    the Text alone. *)
Theorem asc_text_align_set_range (t : Text) (a : string) :
  In (textAlignment (asc_text_align_set t a),
      verticalAlignment (asc_text_align_set t a)) decoded_pairs
  /\ coord (asc_text_align_set t a) = coord t
  /\ text (asc_text_align_set t a) = text t
  /\ size (asc_text_align_set t a) = size t.
Proof.
  unfold asc_text_align_set.
  repeat match goal with |- context [if ?b then _ else _] => destruct b end;
    simpl; tauto.
Qed.

(** A token that is none of the six gives the Text the default pair,
    left and bottom, and changes nothing else. *)
Theorem asc_text_align_set_unknown (t : Text) (a : string) :
  ~ In a alignment_tokens ->
  asc_text_align_set t a
  = mkText (coord t) (text t) (size t) HorAlign.LEFT VerAlign.BOTTOM.
Proof.
  intros Hn. unfold asc_text_align_set.
  repeat match goal with
         | |- context [String.eqb a ?s] =>
             destruct (String.eqb_spec a s) as [->|_];
             [exfalso; apply Hn; simpl; tauto|]
         end.
  reflexivity.
Qed.

(** The token [asc_text_align_get] returns is one that survives: decoded
    and encoded again, it is the same token, whatever the pair it was
    computed from. *)
Theorem asc_text_align_get_stable (t u : Text) :
  asc_text_align_get (asc_text_align_set t (asc_text_align_get u))
  = asc_text_align_get u.
Proof.
  unfold asc_text_align_get at 2 3.
  destruct (verticalAlignment u), (textAlignment u); reflexivity.
Qed.

(** Encoding a decoded Text and decoding the token gives the Text back:
    on the pairs the decoder assigns, the encoder loses nothing. *)
Theorem asc_text_align_decode_encode (t : Text) (a : string) :
  asc_text_align_set (asc_text_align_set t a)
    (asc_text_align_get (asc_text_align_set t a))
  = asc_text_align_set t a.
Proof.
  unfold asc_text_align_set.
  repeat match goal with |- context [String.eqb a ?s] =>
           destruct (String.eqb a s) end; reflexivity.
Qed.


(** The rotation tokens: the token written for a rotation is read as
    that rotation, and a token that is read is written back as it was. *)
Theorem rotation_roundtrip (r : ERotation) (tok : string) :
  ASC_ROTATION_DICT (ASC_INV_ROTATION_DICT r) = Some r
  /\ (ASC_ROTATION_DICT tok = Some r -> ASC_INV_ROTATION_DICT r = tok).
Proof.
  split; [destruct r; reflexivity|].
  unfold ASC_ROTATION_DICT.
  repeat match goal with
         | |- context [String.eqb tok ?s] =>
             destruct (String.eqb_spec tok s) as [->|_];
             [intros [= <-]; reflexivity|]
         end.
  discriminate.
Qed.

(* ================================================================== *)
(** * Further properties: dictionaries *)
(* ================================================================== *)

Lemma dict_get_set_same {V} (k : string) (v : V) (d : dict V) :
  Dict.get k (Dict.set k v d) = Some v.
Proof.
  induction d as [|[k' v'] d IH]; simpl.
  - rewrite String.eqb_refl. reflexivity.
  - destruct (String.eqb k k') eqn:E; simpl.
    + rewrite String.eqb_refl. reflexivity.
    + rewrite E. exact IH.
Qed.

Lemma dict_get_set_other {V} (k k' : string) (v : V) (d : dict V) :
  k' <> k -> Dict.get k' (Dict.set k v d) = Dict.get k' d.
Proof.
  intros Hk. induction d as [|[k0 v0] d IH]; simpl.
  - destruct (String.eqb_spec k' k); [contradiction|reflexivity].
  - destruct (String.eqb_spec k k0) as [->|Hk0]; simpl.
    + destruct (String.eqb_spec k' k0); [contradiction|reflexivity].
    + destruct (String.eqb k' k0); [reflexivity|exact IH].
Qed.

Lemma dict_keys_set_mem {V} (k : string) (v : V) (d : dict V) :
  Dict.mem k d = true -> Dict.keys (Dict.set k v d) = Dict.keys d.
Proof.
  unfold Dict.mem. induction d as [|[k0 v0] d IH]; simpl; [discriminate|].
  destruct (String.eqb_spec k k0) as [->|Hk0]; simpl; [reflexivity|].
  intros H. rewrite (IH H). reflexivity.
Qed.

Lemma dict_keys_set_new {V} (k : string) (v : V) (d : dict V) :
  Dict.mem k d = false -> Dict.keys (Dict.set k v d) = (Dict.keys d ++ [k])%list.
Proof.
  unfold Dict.mem. induction d as [|[k0 v0] d IH]; simpl; [reflexivity|].
  destruct (String.eqb_spec k k0) as [->|Hk0]; simpl; [discriminate|].
  intros H. rewrite (IH H). reflexivity.
Qed.

Lemma dict_get_In {V} (k : string) (d : dict V) :
  Dict.get k d = None <-> ~ In k (Dict.keys d).
Proof.
  induction d as [|[k0 v0] d IH]; simpl; [tauto|].
  destruct (String.eqb_spec k k0) as [->|Hk0].
  - split; [discriminate|]. intros H. exfalso. apply H. auto.
  - rewrite IH. split; intros H; [intros [E|E]; [congruence|tauto]|tauto].
Qed.

Lemma dict_set_nodup {V} (k : string) (v : V) (d : dict V) :
  NoDup (Dict.keys d) -> NoDup (Dict.keys (Dict.set k v d)).
Proof.
  intros H. destruct (Dict.mem k d) eqn:E.
  - rewrite dict_keys_set_mem by exact E. exact H.
  - rewrite dict_keys_set_new by exact E.
    unfold Dict.mem in E.
    destruct (Dict.get k d) eqn:G; [discriminate|].
    apply dict_get_In in G.
    apply NoDup_rev in H. rewrite <- (rev_involutive (_ ++ _)).
    apply NoDup_rev. rewrite rev_app_distr. simpl.
    constructor; [rewrite <- in_rev; exact G|exact H].
Qed.

Lemma dict_get_remove_same {V} (k : string) (d : dict V) :
  NoDup (Dict.keys d) -> Dict.get k (Dict.remove k d) = None.
Proof.
  induction d as [|[k0 v0] d IH]; simpl; [reflexivity|].
  intros H. inversion H as [|? ? Hn Hd]; subst.
  destruct (String.eqb_spec k k0) as [->|Hk0]; simpl.
  - apply dict_get_In. exact Hn.
  - destruct (String.eqb_spec k k0); [contradiction|]. apply IH. exact Hd.
Qed.

Lemma dict_get_remove_other {V} (k k' : string) (d : dict V) :
  k' <> k -> Dict.get k' (Dict.remove k d) = Dict.get k' d.
Proof.
  intros Hk. induction d as [|[k0 v0] d IH]; simpl; [reflexivity|].
  destruct (String.eqb_spec k k0) as [->|Hk0]; simpl.
  - destruct (String.eqb_spec k' k0); [contradiction|reflexivity].
  - destruct (String.eqb k' k0); [reflexivity|exact IH].
Qed.

Lemma dict_keys_remove {V} (k : string) (d : dict V) :
  NoDup (Dict.keys d) ->
  Dict.keys (Dict.remove k d)
  = filter (fun k' => negb (String.eqb k k')) (Dict.keys d).
Proof.
  induction d as [|[k0 v0] d IH]; simpl; [reflexivity|].
  intros H. inversion H as [|? ? Hn Hd]; subst.
  destruct (String.eqb_spec k k0) as [->|Hk0]; simpl.
  - clear IH H Hd. induction d as [|[k1 v1] d IH]; simpl; [reflexivity|].
    simpl in Hn.
    destruct (String.eqb_spec k0 k1) as [->|H1]; simpl; [tauto|].
    f_equal. apply IH. tauto.
  - f_equal. apply IH. exact Hd.
Qed.

(* ================================================================== *)
(** * Further properties: the mutation API *)
(* ================================================================== *)

Lemma list_min_le (d : Z) (l : list Z) :
  list_min d l <= d /\ forall a, In a l -> list_min d l <= a.
Proof.
  induction l as [|b l [IHd IHl]]; simpl; [split; [lia|tauto]|].
  split; [lia|]. intros a [<-|Ha]; [lia|]. specialize (IHl a Ha). lia.
Qed.

Lemma list_max_ge (d : Z) (l : list Z) :
  d <= list_max d l /\ forall a, In a l -> a <= list_max d l.
Proof.
  induction l as [|b l [IHd IHl]]; simpl; [split; [lia|tauto]|].
  split; [lia|]. intros a [<-|Ha]; [lia|]. specialize (IHl a Ha). lia.
Qed.

(** The free-space point lies clear of the content: at or left of every
    wire endpoint, flag, directive and component and of the sheet's x,
    and at least 24 below every flag, directive, component and first
    endpoint of a wire. *)
Theorem text_space_clear_of_content (self : AscEditor) (origin : Point) :
  sheet_origin self = Returns origin ->
  exists x y : Z,
    _get_text_space self = Returns (x, y)
    /\ x <= X origin
    /\ (forall w, In w (_wires self) ->
          x <= X (V1 w) /\ x <= X (V2 w) /\ Y (V1 w) + 24 <= y)
    /\ (forall t, In t (_labels self ++ _directives self) ->
          x <= X (coord t) /\ Y (coord t) + 24 <= y)
    /\ (forall c, In c (Dict.values (_components self)) ->
          x <= X (position c) /\ Y (position c) + 24 <= y).
Proof.
  intros Ho. rewrite (_get_text_space_eq self origin Ho).
  do 2 eexists. split; [reflexivity|].
  destruct (list_min_le (Z.min 100000 (X origin)) (model_xs self))
    as [Hd Hx].
  destruct (list_max_ge (-100000) (model_ys_read self)) as [_ Hy].
  assert (Hxs : forall a, In a (model_xs self) ->
                  list_min (Z.min 100000 (X origin)) (model_xs self) <= a)
    by exact Hx.
  assert (Hys : forall a, In a (model_ys_read self) ->
                  a + 24 <= list_max (-100000) (model_ys_read self) + 24)
    by (intros a Ha; specialize (Hy a Ha); lia).
  clear Hx Hy. unfold model_xs in Hxs. unfold model_ys_read in Hys.
  split; [lia|]. repeat split.
  - apply Hxs. apply in_or_app. left. apply in_flat_map.
    exists w. simpl. auto.
  - apply Hxs. apply in_or_app. left. apply in_flat_map.
    exists w. simpl. auto.
  - apply Hys. apply in_or_app. left. apply in_flat_map.
    exists w. simpl. auto.
  - apply Hxs. apply in_or_app. right.
    apply in_app_or in H. rewrite app_assoc. apply in_or_app. left.
    apply in_or_app.
    destruct H as [H|H]; [left|right];
      exact (in_map (fun t => X (coord t)) _ _ H).
  - apply Hys. apply in_or_app. right.
    apply in_app_or in H. rewrite app_assoc. apply in_or_app. left.
    apply in_or_app.
    destruct H as [H|H]; [left|right];
      exact (in_map (fun t => Y (coord t)) _ _ H).
  - apply Hxs. do 3 (apply in_or_app; right).
    exact (in_map (fun c => X (position c)) _ _ H).
  - apply Hys. do 3 (apply in_or_app; right).
    exact (in_map (fun c => Y (position c)) _ _ H).
Qed.

Section ComponentEdits.

Variable Number : Type.
Variable format_eng : Number -> string.

Local Abbreviation set_value := (set_component_value Number format_eng).

(** The string [set_component_value] stores for a value. *)
Definition stored_value (value : Value Number) : string :=
  match value with
  | ValStr _ s => s
  | ValNum _ n => format_eng n
  end.

(** Setting the value of a component that has one and reading it back
    gives the string that was set, or the engineering notation of the
    number that was set. *)
Theorem set_then_get_component_value
    (device : string) (value : Value Number) (self : AscEditor)
    (c : SchematicComponent) :
  Dict.get device (_components self) = Some c ->
  Dict.mem "Value" (attributes c) = true ->
  exists self' : AscEditor,
    set_value device value self = Returns (tt, self')
    /\ get_component_value device self'
       = Returns (AStr (stored_value value), self').
Proof.
  intros Hc Hv. unfold set_component_value, get_component_info.
  rewrite Hc. cbn [bind]. rewrite Hv.
  eexists. split; [reflexivity|].
  unfold get_component_value, get_component_info. cbn [_components set_components].
  rewrite dict_get_set_same. cbn [bind attributes set_attribute].
  rewrite dict_get_set_same. destruct value; reflexivity.
Qed.

(** Setting a value touches nothing else: the references and their
    order, every other component, the other attributes of the component
    and their order, its symbol, position and rotation, and the wires,
    flags, directives, version and sheet are as before. *)
Theorem set_component_value_frame
    (device : string) (value : Value Number) (self self' : AscEditor) :
  set_value device value self = Returns (tt, self') ->
  Dict.keys (_components self') = Dict.keys (_components self)
  /\ (forall other, other <> device ->
        Dict.get other (_components self')
        = Dict.get other (_components self))
  /\ (exists c c',
        Dict.get device (_components self) = Some c
        /\ Dict.get device (_components self') = Some c'
        /\ symbol c' = symbol c /\ position c' = position c
        /\ rotation c' = rotation c /\ reference c' = reference c
        /\ Dict.keys (attributes c') = Dict.keys (attributes c)
        /\ forall a, a <> "Value" ->
             Dict.get a (attributes c') = Dict.get a (attributes c))
  /\ _wires self' = _wires self /\ _labels self' = _labels self
  /\ _directives self' = _directives self
  /\ version self' = version self /\ sheet self' = sheet self.
Proof.
  unfold set_component_value, get_component_info.
  destruct (Dict.get device (_components self)) as [c|] eqn:Hc;
    cbn [bind]; [|discriminate].
  destruct (Dict.mem "Value" (attributes c)) eqn:Hv; [|discriminate].
  intros [= <-]. cbn [_components set_components].
  split.
  { apply dict_keys_set_mem. unfold Dict.mem. rewrite Hc. reflexivity. }
  split.
  { intros other Ho. apply dict_get_set_other. exact Ho. }
  split; [|repeat split].
  exists c. eexists. split; [reflexivity|].
  split; [apply dict_get_set_same|].
  cbn [symbol position rotation reference attributes set_attribute].
  repeat split.
  - apply dict_keys_set_mem. exact Hv.
  - intros a Ha. apply dict_get_set_other. exact Ha.
Qed.

End ComponentEdits.

(** [set_element_model] replaces the symbol of the component and nothing
    else: the component keeps its place, its position, rotation,
    reference and attributes, and its value is read as before. *)
Theorem set_element_model_sets_symbol
    (element model : string) (self : AscEditor) (c : SchematicComponent) :
  Dict.get element (_components self) = Some c ->
  exists self' : AscEditor,
    set_element_model element model self = Returns (tt, self')
    /\ get_component_info element self'
       = Returns (mkComponent model (position c) (rotation c) (reference c)
                    (attributes c))
    /\ Dict.keys (_components self') = Dict.keys (_components self)
    /\ (forall other, other <> element ->
          Dict.get other (_components self')
          = Dict.get other (_components self))
    /\ component_value element self' = component_value element self.
Proof.
  intros Hc. unfold set_element_model, get_component_info.
  rewrite Hc. cbn [bind]. eexists. split; [reflexivity|].
  unfold component_value. cbn [_components set_components].
  rewrite dict_get_set_same, Hc. repeat split.
  - apply dict_keys_set_mem. unfold Dict.mem. rewrite Hc. reflexivity.
  - intros other Ho. apply dict_get_set_other. exact Ho.
Qed.

(** Removing a component: it is no longer found, the other references
    keep their order and their components, and removing it a second
    time raises KeyError. *)
Theorem remove_component_removes (designator : string) (self : AscEditor) :
  NoDup (Dict.keys (_components self)) ->
  Dict.mem designator (_components self) = true ->
  exists self' : AscEditor,
    remove_component designator self = Returns (tt, self')
    /\ get_component_info designator self'
       = Raises (Exn ComponentNotFoundError (msg_not_found designator))
    /\ Dict.keys (_components self')
       = filter (fun k => negb (String.eqb designator k))
           (Dict.keys (_components self))
    /\ (forall other, other <> designator ->
          Dict.get other (_components self')
          = Dict.get other (_components self))
    /\ remove_component designator self'
       = Raises (Exn KeyError designator).
Proof.
  intros Hn Hm. unfold remove_component. rewrite Hm.
  eexists. split; [reflexivity|].
  unfold get_component_info, Dict.mem. cbn [_components set_components].
  rewrite (dict_get_remove_same designator _ Hn). repeat split.
  - apply dict_keys_remove. exact Hn.
  - intros other Ho. apply dict_get_remove_other. exact Ho.
Qed.

(* ================================================================== *)
(** * Further properties: parameters and instructions *)
(* ================================================================== *)

Section DirectiveEdits.

Variable default_size : PyVal.
Variable default_textAlignment : HorAlign.t.
Variable default_verticalAlignment : VerAlign.t.
Variable Number : Type.
Variable format_eng : Number -> string.
Variable str_Number : Number -> string.
Variable Match : Type.
Variable PARAM_search : string -> string -> option Match.
Variable group_value : Match -> option string.
Variable Pattern : Type.
Variable re_compile : string -> outcome Pattern.
Variable re_match : Pattern -> string -> bool.

Local Abbreviation get_param := (get_parameter Match PARAM_search group_value).
Local Abbreviation set_param :=
  (set_parameter default_size default_textAlignment
     default_verticalAlignment Number format_eng str_Number Match
     PARAM_search group_value).
Local Abbreviation remove_X :=
  (remove_Xinstruction Pattern re_compile re_match).




(** Whenever [set_parameter] returns, it has appended one directive,
    [.param name=value] in lower case with size 2 at the free-space
    point, and has changed nothing else; the parameter it was asked to
    set had been found with an empty value. *)
Theorem set_parameter_only_appends
    (param : string) (value : Value Number) (self self' : AscEditor) :
  set_param param value self = Returns (tt, self') ->
  exists (x y : Z) (found : Text),
    _get_text_space self = Returns (x, y)
    /\ (get_param param self = Returns (None, found)
        \/ get_param param self = Returns (Some EmptyString, found))
    /\ self'
       = set_directives
           (_directives self ++
            [mkText (mkPoint x y)
               (".param " ++ param ++ "=" ++ fmt_Value Number str_Number value)
               (PInt 2) default_textAlignment default_verticalAlignment])
           self.
Proof.
  unfold set_parameter.
  destruct (get_param param self) as [[mv d]|e]; cbn [bind];
    [|discriminate].
  destruct (truthy mv) eqn:Ht; cbn [bind]; [discriminate|].
  destruct (_get_text_space self) as [[x y]|e]; cbn [bind]; [|discriminate].
  intros [= <-]. exists x, y, d. split; [reflexivity|]. split; [|reflexivity].
  destruct mv as [[|c s]|]; [right|discriminate|left]; reflexivity.
Qed.

(** [remove_instruction] removes nothing: on a model without directives
    it raises RuntimeError with the message that the instruction was not
    found, and on any other model it stops at the first directive with
    TypeError, whether or not a directive holds the instruction. *)
Theorem remove_instruction_raises (instruction : string) (self : AscEditor) :
  remove_instruction instruction self
  = Raises (match _directives self with
            | [] =>
                Exn RuntimeError
                  ("Instruction " ++ dquote ++ instruction ++ dquote
                   ++ " not found")
            | _ :: _ => Exn TypeError ""
            end).
Proof.
  unfold remove_instruction.
  destruct (_directives self) as [|d ds]; reflexivity.
Qed.

(** [remove_Xinstruction], once its pattern is compiled, returns without
    an error and without a change on a model that has no directive, and
    stops at the first directive with TypeError on any other model. *)
Theorem remove_Xinstruction_outcome
    (search_pattern : string) (regex : Pattern) (self : AscEditor) :
  re_compile search_pattern = Returns regex ->
  remove_X search_pattern self
  = match _directives self with
    | [] => Returns (tt, self)
    | _ :: _ => Raises (Exn TypeError "")
    end.
Proof.
  intros Hc. unfold remove_Xinstruction. rewrite Hc. cbn [bind].
  destruct (_directives self) as [|d ds]; reflexivity.
Qed.

End DirectiveEdits.

(* ================================================================== *)
(** * Further properties: what a record does to the parser's state *)
(* ================================================================== *)

(** The effect of one record that the parser accepts, on its state. *)
Inductive line_effect (line : string) : pstate -> pstate -> Prop :=
| eff_symbol (self self' : AscEditor)
    (component : option SchematicComponent) (c : SchematicComponent) :
    PyStr.startswith "SYMBOL" line = true ->
    commit self component = Returns self' ->
    reference c = None -> attributes c = [] ->
    line_effect line (self, component) (self', Some c)
| eff_window (self : AscEditor) (c : SchematicComponent)
    (k : string) (t : Text) :
    line_effect line (self, Some c) (self, Some (set_attribute k (AText t) c))
| eff_instname (self : AscEditor) (c : SchematicComponent) (r : string) :
    PyStr.startswith "SYMATTR" line = true ->
    r <> EmptyString ->
    line_effect line (self, Some c) (self, Some (set_reference r c))
| eff_symattr (self : AscEditor) (c : SchematicComponent) (k v : string) :
    line_effect line (self, Some c) (self, Some (set_attribute k (AStr v) c))
| eff_text (self : AscEditor) (component : option SchematicComponent)
    (t : Text) (z : Z) :
    size t = PInt z ->
    line_effect line (self, component)
      (set_directives (_directives self ++ [t]) self, component)
| eff_skip (st : pstate) :
    PyStr.startswith "TEXT" line = true ->
    line_effect line st st
| eff_wire (self : AscEditor) (component : option SchematicComponent)
    (w : Line) :
    line_effect line (self, component)
      (set_wires (_wires self ++ [w]) self, component)
| eff_flag (self : AscEditor) (component : option SchematicComponent)
    (f : Text) :
    line_effect line (self, component)
      (set_labels (_labels self ++ [f]) self, component)
| eff_version (self : AscEditor) (component : option SchematicComponent) :
    line_effect line (self, component)
      (set_version (VerStr "4") self, component)
| eff_sheet (self : AscEditor) (component : option SchematicComponent)
    (s : string) :
    PyStr.startswith "SHEET " line = true ->
    line_effect line (self, component)
      (set_sheet (SheetStr s) self, component).

(** The component map holds every component under its own reference. *)
Definition keyed (d : dict SchematicComponent) : Prop :=
  Forall (fun kc => reference (snd kc) = Some (fst kc)) d.

(** The size of the Text is a number. *)
Definition int_sized (t : Text) : Prop := exists z : Z, size t = PInt z.

Lemma dict_set_forall {V} (P : string * V -> Prop) (k : string) (v : V)
    (d : dict V) :
  P (k, v) -> Forall P d -> Forall P (Dict.set k v d).
Proof.
  intros Hk. induction d as [|[k' v'] d IH]; simpl; intros H.
  - repeat constructor. exact Hk.
  - inversion H; subst.
    destruct (String.eqb k k'); constructor; auto.
Qed.

Lemma directive_lines_int_sized (ds : list Text) :
  Forall int_sized ds -> exists ls, directive_lines ds = Returns ls.
Proof.
  induction 1 as [|d ds [z Hz] _ [ls IH]]; simpl.
  - eexists. reflexivity.
  - unfold directive_line. rewrite Hz, IH.
    destruct (z <? 0); eexists; reflexivity.
Qed.

Section ParserEffects.

Variable default_size : PyVal.
Variable default_textAlignment : HorAlign.t.
Variable default_verticalAlignment : VerAlign.t.
Variable repr_Text : Text -> string.

Local Abbreviation open_file :=
  (AscEditor_new default_size default_textAlignment default_verticalAlignment).
Local Abbreviation read_line :=
  (parse_line default_size default_textAlignment default_verticalAlignment).
Local Abbreviation read_lines :=
  (parse_lines default_size default_textAlignment default_verticalAlignment).
Local Abbreviation read_file :=
  (reset_netlist default_size default_textAlignment default_verticalAlignment).

Ltac bind_step H :=
  match type of H with
  | bind ?m _ = Returns _ =>
      let E := fresh "E" in
      destruct m eqn:E; cbn [bind] in H; [|discriminate]
  end.

Lemma parse_line_effect (line : string) (st st' : pstate) :
  read_line line st = Returns st' -> line_effect line st st'.
Proof.
  unfold parse_line. destruct st as [self component]. intros H.
  destruct (PyStr.startswith "SYMBOL" line) eqn:Hsym.
  { bind_step H. destruct a as [[[[tag sym] px] py] rot].
    bind_step H. bind_step H. bind_step H.
    destruct (ASC_ROTATION_DICT rot); [|discriminate].
    injection H as <-. eapply eff_symbol; eauto. }
  destruct (PyStr.startswith "WINDOW" line).
  { destruct component as [c|]; [|discriminate].
    bind_step H. destruct a as [[[[[tag num] px] py] al] sz].
    bind_step H. bind_step H. injection H as <-. apply eff_window. }
  destruct (PyStr.startswith "SYMATTR" line) eqn:Hattr.
  { destruct component as [c|]; [|discriminate].
    bind_step H. destruct a as [[tag ref] txt].
    assert (Ht : starts_nonspace txt = true).
    { unfold unpack3 in E.
      pose proof (split_go_nonspace line 2 EmptyString (or_introl eq_refl))
        as Hs.
      fold (PyStr.split_max 2 line) in Hs.
      destruct (PyStr.split_max 2 line) as [|a [|b [|t [|]]]];
        try discriminate.
      injection E as _ _ <-.
      inversion Hs as [|? ? _ Hs1]; inversion Hs1 as [|? ? _ Hs2];
        inversion Hs2; assumption. }
    destruct (String.eqb ref "InstName"); injection H as <-.
    - apply eff_instname; [exact Hattr|]. apply strip_nonempty. exact Ht.
    - apply eff_symattr. }
  destruct (PyStr.startswith "TEXT" line) eqn:Htext.
  { destruct (Re.TEXT_REGEX_match line).
    - bind_step H. bind_step H. bind_step H. injection H as <-.
      eapply eff_text.
      rewrite (proj2 (proj2 (asc_text_align_set_keeps _ _))). reflexivity.
    - injection H as <-. apply eff_skip. exact Htext. }
  destruct (PyStr.startswith "WIRE" line).
  { bind_step H. destruct a as [[[[tag x1] y1] x2] y2].
    bind_step H. bind_step H. bind_step H. bind_step H.
    injection H as <-. apply eff_wire. }
  destruct (PyStr.startswith "FLAG" line).
  { bind_step H. destruct a as [[[tag px] py] txt].
    bind_step H. bind_step H. injection H as <-. apply eff_flag. }
  destruct (PyStr.startswith "Version" line).
  { bind_step H. destruct a as [tag ver].
    destruct (String.eqb_spec ver "4") as [->|]; [|discriminate].
    injection H as <-. apply eff_version. }
  destruct (PyStr.startswith "SHEET " line) eqn:Hsheet; [|discriminate].
  injection H as <-. apply eff_sheet. exact Hsheet.
Qed.

(** An accepted record keeps the component map keyed and free of
    repeated references, and the sizes of the directives numbers. *)
Definition state_ok (st : pstate) : Prop :=
  keyed (_components (fst st))
  /\ NoDup (Dict.keys (_components (fst st)))
  /\ Forall int_sized (_directives (fst st)).

Lemma commit_frame (self self' : AscEditor)
    (component : option SchematicComponent) :
  commit self component = Returns self' ->
  version self' = version self /\ sheet self' = sheet self
  /\ _wires self' = _wires self /\ _labels self' = _labels self
  /\ _directives self' = _directives self
  /\ (component = None -> self' = self)
  /\ (forall c, component = Some c ->
        exists r, reference c = Some r
                  /\ _components self' = Dict.set r c (_components self)).
Proof.
  unfold commit. destruct component as [c|].
  - destruct (reference c) as [r|] eqn:Hr; [|discriminate].
    intros [= <-]. repeat split; [discriminate|].
    intros c' [= <-]. exists r. split; [exact Hr|reflexivity].
  - intros [= <-]. repeat split. discriminate.
Qed.

Lemma line_effect_ok (line : string) (st st' : pstate) :
  line_effect line st st' -> state_ok st -> state_ok st'.
Proof.
  intros He (Hk & Hn & Hd).
  destruct He; unfold state_ok in *; cbn [fst] in *;
    try (repeat split; assumption).
  - destruct (commit_frame _ _ _ H0) as (_ & _ & _ & _ & Hds & Hnone & Hsome).
    rewrite Hds. destruct component as [c0|].
    + destruct (Hsome c0 eq_refl) as (r & Hr & ->).
      repeat split; [|apply dict_set_nodup; exact Hn|exact Hd].
      apply dict_set_forall; [exact Hr|exact Hk].
    + rewrite (Hnone eq_refl). repeat split; assumption.
  - repeat split; try assumption. cbn [_directives set_directives].
    apply Forall_app. split; [exact Hd|].
    repeat constructor. exists z. assumption.
Qed.

Lemma parse_lines_invariant (Q : string -> Prop) (P : pstate -> Prop) :
  (forall line st st',
      Q line -> line_effect line st st' -> P st -> P st') ->
  forall (lines : list string) (st st' : pstate),
    Forall Q lines -> P st ->
    read_lines lines st = Returns st' -> P st'.
Proof.
  intros Hstep lines.
  induction lines as [|line rest IH]; intros st st' HQ HP H;
    cbn [parse_lines] in H.
  - injection H as <-. exact HP.
  - inversion HQ as [|? ? Hq Hrest]; subst. bind_step H.
    apply (IH a st' Hrest); [|exact H].
    apply (Hstep line st a Hq); [|exact HP].
    apply parse_line_effect. exact E.
Qed.

Lemma read_file_ok (lines : list string) (self m : AscEditor) :
  read_file lines self = Returns m ->
  keyed (_components m) /\ NoDup (Dict.keys (_components m))
  /\ Forall int_sized (_directives m).
Proof.
  unfold reset_netlist. intros H. bind_step H.
  destruct a as [self' component].
  assert (Hok : state_ok (self', component)).
  { apply (parse_lines_invariant (fun _ => True) state_ok) with
      (lines := lines) (st := (super_reset_netlist self, None)).
    - intros line st st' _. apply line_effect_ok.
    - apply Forall_forall. auto.
    - repeat split; constructor.
    - exact E. }
  destruct Hok as (Hk & Hn & Hd). cbn [fst] in *.
  destruct (commit_frame _ _ _ H) as (_ & _ & _ & _ & Hds & Hnone & Hsome).
  rewrite Hds. destruct component as [c|].
  - destruct (Hsome c eq_refl) as (r & Hr & ->).
    repeat split; [|apply dict_set_nodup; exact Hn|exact Hd].
    apply dict_set_forall; [exact Hr|exact Hk].
  - rewrite (Hnone eq_refl). repeat split; assumption.
Qed.

(** In a model read from a file every component is stored under its own
    reference, no reference is empty and none occurs twice: of two
    components with one InstName the later replaces the earlier. *)
Theorem parsed_components_keyed (file : string) (m : AscEditor) :
  open_file file = Returns m ->
  (forall k c, In (k, c) (_components m) ->
     reference c = Some k /\ k <> EmptyString)
  /\ NoDup (Dict.keys (_components m)).
Proof.
  intros H. destruct (read_file_ok _ _ _ H) as (Hk & Hn & _).
  pose proof (reset_netlist_refs_nonempty _ _ _ _ _ _ H) as He.
  split; [|exact Hn]. intros k c Hin. split.
  - unfold keyed in Hk. rewrite Forall_forall in Hk. exact (Hk _ Hin).
  - rewrite Forall_forall in He. apply He.
    unfold Dict.keys. exact (in_map fst _ _ Hin).
Qed.

(** Every model read from a file can be saved: [save_netlist] returns a
    text for it. *)
Theorem parsed_model_saves (file : string) (m : AscEditor) :
  open_file file = Returns m ->
  exists saved : string, save_netlist repr_Text m = Returns saved.
Proof.
  intros H. destruct (read_file_ok _ _ _ H) as (_ & _ & Hd).
  destruct (directive_lines_int_sized _ Hd) as [ls Hls].
  unfold save_netlist, save_lines. rewrite Hls. cbn [bind].
  eexists. reflexivity.
Qed.

(** The version of a model read from a file is the 4 the constructor
    assigns or the [4] of a Version record: no other version is read. *)
Theorem parsed_version (file : string) (m : AscEditor) :
  open_file file = Returns m ->
  version m = VerInt 4 \/ version m = VerStr "4".
Proof.
  unfold AscEditor_new, reset_netlist. intros H. bind_step H.
  destruct a as [self' component].
  destruct (commit_frame _ _ _ H) as (-> & _).
  apply (parse_lines_invariant (fun _ => True)
           (fun st => version (fst st) = VerInt 4
                      \/ version (fst st) = VerStr "4")) with
    (lines := PyStr.readlines file)
    (st := (super_reset_netlist
              (mkEditor (VerInt 4) (SheetTuple 0 0) [] [] [] []), None))
    (st' := (self', component)); [|apply Forall_forall; auto|left; reflexivity|exact E].
  intros line st st' _ He HP.
  destruct He; cbn [fst] in *; try assumption.
  - destruct (commit_frame _ _ _ H1) as (-> & _). exact HP.
  - right. reflexivity.
Qed.

(** A file without a SHEET record gives a model without a free-space
    point: the sheet stays the pair the constructor assigns, and
    [_get_text_space] raises AttributeError on it. *)
Theorem no_sheet_no_text_space (file : string) (m : AscEditor) :
  open_file file = Returns m ->
  Forall (fun line => PyStr.startswith "SHEET " line = false)
    (PyStr.readlines file) ->
  sheet m = SheetTuple 0 0
  /\ _get_text_space m = Raises (Exn AttributeError "").
Proof.
  unfold AscEditor_new, reset_netlist. intros H HQ. bind_step H.
  destruct a as [self' component].
  destruct (commit_frame _ _ _ H) as (_ & Hs & _).
  assert (Hsheet : sheet self' = SheetTuple 0 0).
  { apply (parse_lines_invariant
             (fun line => PyStr.startswith "SHEET " line = false)
             (fun st => sheet (fst st) = SheetTuple 0 0)) with
      (lines := PyStr.readlines file)
      (st := (super_reset_netlist
                (mkEditor (VerInt 4) (SheetTuple 0 0) [] [] [] []), None))
      (st' := (self', component)); [|exact HQ|reflexivity|exact E].
    intros line st st' Hq He HP.
    destruct He; cbn [fst] in *; try assumption.
    - destruct (commit_frame _ _ _ H1) as (_ & -> & _). exact HP.
    - congruence. }
  rewrite Hs, Hsheet. split; [reflexivity|].
  unfold _get_text_space. rewrite Hs, Hsheet. reflexivity.
Qed.

End ParserEffects.

(* ================================================================== *)
(** * Further properties: files the parser refuses *)
(* ================================================================== *)

Section ParserErrors.

Variable default_size : PyVal.
Variable default_textAlignment : HorAlign.t.
Variable default_verticalAlignment : VerAlign.t.

Local Abbreviation read_line :=
  (parse_line default_size default_textAlignment default_verticalAlignment).
Local Abbreviation read_lines :=
  (parse_lines default_size default_textAlignment default_verticalAlignment).
Local Abbreviation read_file :=
  (reset_netlist default_size default_textAlignment default_verticalAlignment).

(** A line the parser refuses in every state makes the file fail,
    wherever it stands. *)
Lemma refused_line_fails (before after : list string) (line : string)
    (self : AscEditor) :
  (forall st, exists e, read_line line st = Raises e) ->
  exists e : exn, read_file (before ++ line :: after) self = Raises e.
Proof.
  intros Hline. unfold reset_netlist. rewrite parse_lines_app.
  destruct (read_lines before (super_reset_netlist self, None)) as [st|e];
    cbn [bind parse_lines]; [|eexists; reflexivity].
  destruct (Hline st) as [e ->]. eexists. reflexivity.
Qed.

(** The grammar is closed: a file with a line that starts with none of
    the eight keywords, an empty line for one, is not read. *)
Theorem unknown_record_fails (before after : list string) (line : string)
    (self : AscEditor) :
  forallb (fun k => negb (PyStr.startswith k line))
    ["SYMBOL"; "WINDOW"; "SYMATTR"; "TEXT"; "WIRE"; "FLAG"; "Version";
     "SHEET "] = true ->
  exists e : exn, read_file (before ++ line :: after) self = Raises e.
Proof.
  intros H. apply refused_line_fails. intros st.
  rewrite (unknown_record_raises _ _ _ line st H). eexists. reflexivity.
Qed.

Lemma attribute_without_component (line : string) (self : AscEditor) :
  PyStr.startswith "WINDOW" line = true
  \/ PyStr.startswith "SYMATTR" line = true ->
  exists e : exn, read_line line (self, None) = Raises e.
Proof.
  intros [H|H]; destruct (startswith_app _ _ H) as [r ->];
    eexists; reflexivity.
Qed.

(** A WINDOW or SYMATTR record that no SYMBOL record precedes makes the
    file fail. *)
Theorem attribute_before_symbol_fails (before after : list string)
    (line : string) (self : AscEditor) :
  Forall (fun l => PyStr.startswith "SYMBOL" l = false) before ->
  PyStr.startswith "WINDOW" line = true
  \/ PyStr.startswith "SYMATTR" line = true ->
  exists e : exn, read_file (before ++ line :: after) self = Raises e.
Proof.
  intros Hb Hl. unfold reset_netlist. rewrite parse_lines_app.
  destruct (read_lines before (super_reset_netlist self, None))
    as [[self' component]|e] eqn:E;
    cbn [bind parse_lines]; [|eexists; reflexivity].
  assert (Hc : snd (self', component) = None).
  { apply (parse_lines_invariant default_size default_textAlignment
             default_verticalAlignment
             (fun l => PyStr.startswith "SYMBOL" l = false)
             (fun st => snd st = None)) with
      (lines := before) (st := (super_reset_netlist self, None));
      [|exact Hb|reflexivity|exact E].
    intros l st st' Hq He HP.
    destruct He; cbn [snd] in *; try assumption; congruence. }
  cbn [snd] in Hc. subst component.
  destruct (attribute_without_component line self' Hl) as [e ->].
  eexists. reflexivity.
Qed.

Lemma symbol_opens_component (line : string) (st st' : pstate) :
  PyStr.startswith "SYMBOL" line = true ->
  read_line line st = Returns st' ->
  exists c, snd st' = Some c /\ reference c = None.
Proof.
  intros Hs. unfold parse_line. destruct st as [self component].
  rewrite Hs. intros H.
  destruct (unpack5 (PyStr.split line)) as [[[[[tag sym] px] py] rot]|];
    cbn [bind] in H; [|discriminate].
  destruct (commit self component); cbn [bind] in H; [|discriminate].
  destruct (PyStr.int px); cbn [bind] in H; [|discriminate].
  destruct (PyStr.int py); cbn [bind] in H; [|discriminate].
  destruct (ASC_ROTATION_DICT rot); [|discriminate].
  injection H as <-. eexists. split; reflexivity.
Qed.

(** A SYMBOL record that no SYMATTR record follows makes the file fail:
    its component has no InstName when it is to be stored. *)
Theorem symbol_without_instname_fails (before after : list string)
    (line : string) (self : AscEditor) :
  PyStr.startswith "SYMBOL" line = true ->
  Forall (fun l => PyStr.startswith "SYMATTR" l = false) after ->
  exists e : exn, read_file (before ++ line :: after) self = Raises e.
Proof.
  intros Hs Ha. unfold reset_netlist. rewrite parse_lines_app.
  destruct (read_lines before (super_reset_netlist self, None)) as [st|e];
    cbn [bind parse_lines]; [|eexists; reflexivity].
  destruct (read_line line st) as [st1|e] eqn:E1;
    cbn [bind]; [|eexists; reflexivity].
  destruct (read_lines after st1) as [[self2 component]|e] eqn:E2;
    cbn [bind]; [|eexists; reflexivity].
  assert (Hc : exists c, snd (self2, component) = Some c
                         /\ reference c = None).
  { apply (parse_lines_invariant default_size default_textAlignment
             default_verticalAlignment
             (fun l => PyStr.startswith "SYMATTR" l = false)
             (fun st => exists c, snd st = Some c /\ reference c = None))
      with (lines := after) (st := st1);
      [|exact Ha|exact (symbol_opens_component line st st1 Hs E1)|exact E2].
    intros l s s' Hq He (c0 & Hc0 & Hr0).
    destruct He; cbn [snd] in *; try (exists c0; split; assumption).
    - subst component0. unfold commit in H0. rewrite Hr0 in H0.
      discriminate.
    - injection Hc0 as <-. eexists. split; [reflexivity|exact Hr0].
    - congruence.
    - injection Hc0 as <-. eexists. split; [reflexivity|exact Hr0]. }
  destruct Hc as (c & Hc & Hr). cbn [snd] in Hc. subst component.
  unfold commit. rewrite Hr. eexists. reflexivity.
Qed.

End ParserErrors.

(* ================================================================== *)
(** * Further properties: the QSPICE simulator class *)
(* ================================================================== *)

Lemma string_app_nil_r (s : string) : s ++ "" = s.
Proof. induction s as [|c s IH]; simpl; congruence. Qed.

(** The placeholder is replaced by the path, and the path is not looked
    into again. *)
Lemma replace_placeholder (path : string) :
  PyStr.replace "<path>" path "<path>" = path.
Proof.
  unfold PyStr.replace. cbn. apply string_app_nil_r.
Qed.

(** The switches without an argument. *)
Definition plain_switches : list string := ["ASCII"; "binary"; "BSIM1"; "Meyer"].

(** The switches that take a path. *)
Definition path_switches : list string :=
  ["o"; "ProtectSelections"; "ProtectSubcircuits"; "r"].

(** [valid_switch] knows eight names, in the case they are written in.
    For the four plain ones it returns the switch with a dash; for the
    four that take a path, the switch with a dash and then the path, as
    it was given; for any other name it raises ValueError. *)
Theorem valid_switch_table (switch path : string) :
  Qspice.valid_switch switch path
  = if existsb (String.eqb switch) plain_switches
    then Returns ["-" ++ switch]
    else if existsb (String.eqb switch) path_switches
    then Returns ["-" ++ switch; path]
    else Raises (Exn ValueError "Invalid switch for class ").
Proof.
  unfold Qspice.valid_switch, Qspice.qspice_args, plain_switches,
    path_switches.
  cbn [Dict.get existsb].
  repeat match goal with
         | |- context [String.eqb switch ?k] =>
             destruct (String.eqb_spec switch k) as [->|_];
             [cbn [map orb]; rewrite ?replace_placeholder; reflexivity|]
         end.
  reflexivity.
Qed.

Section QspiceMachine.

Variable platform : string.
Variable expanduser : string -> string.
Variable path_exists : string -> bool.
Variable path_name : string -> string.
Variable Timeout : Type.
Variable Result : Type.
Variable run_function : list string -> Timeout -> Result.
Variable log_path : string -> string.

Local Abbreviation class_spice_exe :=
  (Qspice.spice_exe platform expanduser path_exists path_name).
Local Abbreviation class_process_name :=
  (Qspice.process_name platform expanduser path_exists path_name).
Local Abbreviation run :=
  (Qspice.run Timeout Result run_function log_path).

(** The places the class looks for the executable, the home directory
    expanded in the first two. *)
Definition candidates : list string :=
  [expanduser "~/Qspice/QSPICE64.exe";
   expanduser "~/AppData/Local/Programs/Qspice/QSPICE64.exe";
   "C:/Program Files/QSPICE/QSPICE64.exe"].

(** On a platform other than linux and darwin the executable is the
    first of the three candidates that exists, and the process name is
    the file name of that one; when none exists there is neither. *)
Theorem spice_exe_first_candidate :
  String.eqb platform "linux" || String.eqb platform "darwin" = false ->
  class_spice_exe
  = match find path_exists candidates with
    | Some exe => [exe]
    | None => []
    end
  /\ class_process_name = option_map path_name (find path_exists candidates).
Proof.
  intros Hp.
  unfold Qspice.spice_exe, Qspice.process_name, Qspice.spice_exe_process_name.
  rewrite Hp. unfold candidates, Qspice._spice_exe_win_paths.
  cbn [Qspice.find_exe find].
  change (PyStr.startswith "~" "~/Qspice/QSPICE64.exe") with true.
  change (PyStr.startswith "~"
            "~/AppData/Local/Programs/Qspice/QSPICE64.exe") with true.
  change (PyStr.startswith "~" "C:/Program Files/QSPICE/QSPICE64.exe")
    with false.
  cbv iota.
  destruct (path_exists (expanduser "~/Qspice/QSPICE64.exe"));
    [split; reflexivity|].
  destruct (path_exists
              (expanduser "~/AppData/Local/Programs/Qspice/QSPICE64.exe"));
    [split; reflexivity|].
  destruct (path_exists "C:/Program Files/QSPICE/QSPICE64.exe");
    split; reflexivity.
Qed.

(** On linux and darwin the class finds no executable, whatever is
    installed, and [run] with the executable of the class raises
    SpiceSimulatorError before anything is started. *)
Theorem no_executable_on_linux
    (netlist_file : string) (cmd_line_switches : list string)
    (timeout : Timeout) :
  platform = "linux" \/ platform = "darwin" ->
  class_spice_exe = [] /\ class_process_name = None
  /\ run class_spice_exe netlist_file cmd_line_switches timeout
     = Qspice.SpiceSimulatorError Result "Simulator executable not found.".
Proof.
  intros Hp.
  assert (He : class_spice_exe = [] /\ class_process_name = None).
  { unfold Qspice.spice_exe, Qspice.process_name,
      Qspice.spice_exe_process_name.
    destruct Hp as [-> | ->]; split; reflexivity. }
  destruct He as [He Hn]. rewrite He. repeat split. exact Hn.
Qed.

End QspiceMachine.

(* ================================================================== *)
(** * Further properties: lines, words and stripped text *)
(* ================================================================== *)

(** A word: not empty and free of whitespace. *)
Definition word (s : string) : Prop :=
  all_chars nonspace s = true /\ s <> EmptyString.


(** A text that is not empty and has no whitespace at either end. *)
Definition stripped (s : string) : Prop :=
  starts_nonspace s = true /\ PyStr.rstrip s = s.

















(* ================================================================== *)
(** * Further properties: reading back what the serializer wrote *)
(* ================================================================== *)

Lemma word_literal (s : string) :
  all_chars nonspace s = true -> s <> EmptyString -> word s.
Proof. split; assumption. Qed.



Section RecordsReadBack.

Variable default_size : PyVal.
Variable default_textAlignment : HorAlign.t.
Variable default_verticalAlignment : VerAlign.t.

Local Abbreviation read_line :=
  (parse_line default_size default_textAlignment default_verticalAlignment).
Local Abbreviation new_text :=
  (Text_new default_size default_textAlignment default_verticalAlignment).















End RecordsReadBack.

(* ================================================================== *)
(** * Further properties: models that survive the round trip *)
(* ================================================================== *)








Lemma stripped_nonempty (s : string) : stripped s -> s <> EmptyString.
Proof. intros [H _]. destruct s; [discriminate|discriminate]. Qed.






Section ListsReadBack.

Variable default_size : PyVal.
Variable default_textAlignment : HorAlign.t.
Variable default_verticalAlignment : VerAlign.t.

Local Abbreviation read_line :=
  (parse_line default_size default_textAlignment default_verticalAlignment).
Local Abbreviation read_lines :=
  (parse_lines default_size default_textAlignment default_verticalAlignment).
Local Abbreviation new_text :=
  (Text_new default_size default_textAlignment default_verticalAlignment).





End ListsReadBack.







Section ComponentsReadBack.

Variable default_size : PyVal.
Variable default_textAlignment : HorAlign.t.
Variable default_verticalAlignment : VerAlign.t.
Variable repr_Text : Text -> string.

Local Abbreviation read_line :=
  (parse_line default_size default_textAlignment default_verticalAlignment).
Local Abbreviation read_lines :=
  (parse_lines default_size default_textAlignment default_verticalAlignment).




End ComponentsReadBack.




Section ModelReadBack.

Variable default_size : PyVal.
Variable default_textAlignment : HorAlign.t.
Variable default_verticalAlignment : VerAlign.t.
Variable repr_Text : Text -> string.

Local Abbreviation open_file :=
  (AscEditor_new default_size default_textAlignment default_verticalAlignment).
Local Abbreviation read_lines :=
  (parse_lines default_size default_textAlignment default_verticalAlignment).



End ModelReadBack.

(* ================================================================== *)
(** * Further instances *)
(* ================================================================== *)

(** A schematic with a wire, a ground flag, a resistor of 1k and a
    transient analysis. *)
Definition sample_file : string :=
  file_of_lines
    (header ++
     ["WIRE 96 160 96 128"; "FLAG 96 240 0"; "SYMBOL res 100 200 R0";
      "WINDOW 0 36 40 Left 2"; "SYMATTR InstName R1"; "SYMATTR Value 1k";
      "TEXT 10 20 Left 2 !.tran 10m"]).

(** The model of [sample_file], for a Text whose size is 1 and whose
    alignment is left and centre when nothing else is said. *)
Definition sample_model : AscEditor :=
  mkEditor (VerStr "4") (SheetStr "1 880 680")
    [mkLine (mkPoint 96 160) (mkPoint 96 128)]
    [mkText (mkPoint 96 240) "0" (PInt 1) HorAlign.LEFT VerAlign.CENTER]
    [mkText (mkPoint 10 20) ".tran 10m" (PInt 2) HorAlign.LEFT VerAlign.CENTER]
    [("R1",
      mkComponent "res" (mkPoint 100 200) R0 (Some "R1")
        [("WINDOW 0",
          AText (mkText (mkPoint 36 40) "0" (PStr "2") HorAlign.LEFT
                   VerAlign.CENTER));
         ("Value", AStr "1k")])].

(** A model with one parameter directive in upper case. *)
Definition param_model : AscEditor :=
  set_directives
    [mkText (mkPoint 10 20) ".PARAM x=1" (PInt 2) HorAlign.LEFT
       VerAlign.CENTER] one_resistor.




Lemma asc_text_align_set_unknown_witness :
  asc_text_align_set note "Top"
  = mkText (mkPoint 10 50) "note" (PInt (-2)) HorAlign.LEFT VerAlign.BOTTOM.
Proof.
  apply (asc_text_align_set_unknown note "Top").
  simpl. intuition discriminate.
Defined.

Lemma text_space_clear_of_content_witness :
  sheet_origin sample_model = Returns (mkPoint 880 680)
  /\ exists x y : Z, _get_text_space sample_model = Returns (x, y).
Proof.
  split; [reflexivity|].
  destruct (text_space_clear_of_content sample_model (mkPoint 880 680)
              eq_refl) as (x & y & H & _).
  exists x, y. exact H.
Defined.

Lemma set_then_get_component_value_witness :
  exists self' : AscEditor,
    set_component_value Z PyStr.of_int "R1" (ValNum Z 11000) sample_model
    = Returns (tt, self')
    /\ get_component_value "R1" self' = Returns (AStr "11000", self').
Proof.
  eapply (set_then_get_component_value Z PyStr.of_int "R1" (ValNum Z 11000)
            sample_model); reflexivity.
Defined.

Lemma set_component_value_frame_witness :
  exists self' : AscEditor,
    set_component_value Z PyStr.of_int "R1" (ValStr Z "2k") sample_model
    = Returns (tt, self')
    /\ Dict.keys (_components self') = Dict.keys (_components sample_model).
Proof.
  eexists. split; [reflexivity|].
  apply (set_component_value_frame Z PyStr.of_int "R1" (ValStr Z "2k")
           sample_model).
  reflexivity.
Defined.

Lemma set_element_model_sets_symbol_witness :
  exists self' : AscEditor,
    set_element_model "R1" "res2" sample_model = Returns (tt, self').
Proof.
  destruct (set_element_model_sets_symbol "R1" "res2" sample_model _ eq_refl)
    as (self' & H & _).
  exists self'. exact H.
Defined.

Lemma remove_component_removes_witness :
  exists self' : AscEditor,
    remove_component "R1" sample_model = Returns (tt, self')
    /\ get_component_info "R1" self'
       = Raises (Exn ComponentNotFoundError
                   "Component R1 not found in ASC file").
Proof.
  destruct (remove_component_removes "R1" sample_model) as (self' & H & G & _).
  - cbn. repeat constructor. simpl. tauto.
  - reflexivity.
  - exists self'. split; assumption.
Defined.

Lemma set_parameter_only_appends_witness :
  exists x y : Z, _get_text_space param_model = Returns (x, y).
Proof.
  assert (H : { s : AscEditor |
                set_parameter (PInt 1) HorAlign.LEFT VerAlign.CENTER Z
                  PyStr.of_int PyStr.of_int unit (fun _ _ => Some tt)
                  (fun _ => None) "x" (ValStr Z "2") param_model
                = Returns (tt, s) }) by (eexists; reflexivity).
  destruct H as [s Hs].
  destruct (set_parameter_only_appends (PInt 1) HorAlign.LEFT VerAlign.CENTER
              Z PyStr.of_int PyStr.of_int unit (fun _ _ => Some tt)
              (fun _ => None) "x" (ValStr Z "2") param_model s Hs)
    as (x & y & _ & H & _).
  exists x, y. exact H.
Defined.

Lemma set_parameter_present_raises_witness :
  set_parameter (PInt 1) HorAlign.LEFT VerAlign.CENTER Z PyStr.of_int
    PyStr.of_int unit (fun _ _ => Some tt) (fun _ => Some "1")
    "x" (ValStr Z "2") param_model
  = Raises (Exn AttributeError "").
Proof.
  eapply (set_parameter_present_raises (PInt 1) HorAlign.LEFT VerAlign.CENTER
            Z PyStr.of_int PyStr.of_int unit (fun _ _ => Some tt)
            (fun _ => Some "1") "x" (ValStr Z "2") param_model);
    reflexivity.
Defined.

Lemma remove_Xinstruction_outcome_witness :
  remove_Xinstruction unit (fun _ => Returns tt) (fun _ _ => false)
    "\.tran.*" one_resistor
  = Returns (tt, one_resistor).
Proof.
  apply (remove_Xinstruction_outcome unit (fun _ => Returns tt)
           (fun _ _ => false) "\.tran.*" tt one_resistor).
  reflexivity.
Defined.

Lemma parsed_components_keyed_witness :
  exists m : AscEditor,
    AscEditor_new (PInt 1) HorAlign.LEFT VerAlign.CENTER sample_file
    = Returns m
    /\ NoDup (Dict.keys (_components m)).
Proof.
  eexists. split; [reflexivity|].
  apply (parsed_components_keyed (PInt 1) HorAlign.LEFT VerAlign.CENTER
           sample_file).
  reflexivity.
Defined.

Lemma parsed_model_saves_witness :
  exists saved : string,
    save_netlist (fun _ => "") sample_model = Returns saved.
Proof.
  apply (parsed_model_saves (PInt 1) HorAlign.LEFT VerAlign.CENTER
           (fun _ => "") sample_file sample_model).
  reflexivity.
Defined.

Lemma parsed_version_witness :
  version sample_model = VerInt 4 \/ version sample_model = VerStr "4".
Proof.
  apply (parsed_version (PInt 1) HorAlign.LEFT VerAlign.CENTER sample_file
           sample_model).
  reflexivity.
Defined.

Lemma no_sheet_no_text_space_witness :
  exists m : AscEditor,
    AscEditor_new (PInt 1) HorAlign.LEFT VerAlign.CENTER
      (file_of_lines ["Version 4"; "WIRE 0 0 16 16"]) = Returns m
    /\ _get_text_space m = Raises (Exn AttributeError "").
Proof.
  eexists. split; [reflexivity|].
  apply (no_sheet_no_text_space (PInt 1) HorAlign.LEFT VerAlign.CENTER
           (file_of_lines ["Version 4"; "WIRE 0 0 16 16"])).
  - reflexivity.
  - repeat constructor.
Defined.

Lemma unknown_record_fails_witness :
  exists e : exn,
    reset_netlist (PInt 1) HorAlign.LEFT VerAlign.CENTER
      (["Version 4" ++ END_LINE_TERM] ++ END_LINE_TERM :: [])
      (mkEditor (VerInt 4) (SheetTuple 0 0) [] [] [] [])
    = Raises e.
Proof.
  apply (unknown_record_fails (PInt 1) HorAlign.LEFT VerAlign.CENTER).
  reflexivity.
Defined.

Lemma attribute_before_symbol_fails_witness :
  exists e : exn,
    reset_netlist (PInt 1) HorAlign.LEFT VerAlign.CENTER
      (["Version 4" ++ END_LINE_TERM]
       ++ ("SYMATTR Value 1k" ++ END_LINE_TERM) :: [])
      (mkEditor (VerInt 4) (SheetTuple 0 0) [] [] [] [])
    = Raises e.
Proof.
  apply (attribute_before_symbol_fails (PInt 1) HorAlign.LEFT
           VerAlign.CENTER).
  - repeat constructor.
  - right. reflexivity.
Defined.

Lemma symbol_without_instname_fails_witness :
  exists e : exn,
    reset_netlist (PInt 1) HorAlign.LEFT VerAlign.CENTER
      ([] ++ ("SYMBOL res 0 0 R0" ++ END_LINE_TERM)
          :: ["WIRE 0 0 16 16" ++ END_LINE_TERM])
      (mkEditor (VerInt 4) (SheetTuple 0 0) [] [] [] [])
    = Raises e.
Proof.
  apply (symbol_without_instname_fails (PInt 1) HorAlign.LEFT
           VerAlign.CENTER).
  - reflexivity.
  - repeat constructor.
Defined.

Lemma spice_exe_first_candidate_witness :
  Qspice.spice_exe "win32" (fun p => p)
    (String.eqb "C:/Program Files/QSPICE/QSPICE64.exe")
    (fun _ => "QSPICE64.exe")
  = ["C:/Program Files/QSPICE/QSPICE64.exe"].
Proof.
  apply (spice_exe_first_candidate "win32" (fun p => p)
           (String.eqb "C:/Program Files/QSPICE/QSPICE64.exe")
           (fun _ => "QSPICE64.exe")).
  reflexivity.
Defined.

Lemma no_executable_on_linux_witness :
  Qspice.spice_exe "linux" (fun p => p) (fun _ => true)
    (fun _ => "QSPICE64.exe") = [].
Proof.
  apply (no_executable_on_linux "linux" (fun p => p) (fun _ => true)
           (fun _ => "QSPICE64.exe") nat unit (fun _ _ => tt) (fun p => p)
           "circuit.net" [] 10%nat).
  left. reflexivity.
Defined.

Lemma other_directive_skipped_witness :
  exists line : string,
    directive_line
      (mkText (mkPoint 10 80) ".tran 1m" (PInt 2) HorAlign.LEFT
         VerAlign.BOTTOM) = Returns line
    /\ parse_line (PInt 1) HorAlign.LEFT VerAlign.CENTER line
         (empty_sheet, None)
       = Returns (empty_sheet, None).
Proof.
  apply (other_directive_skipped (PInt 1) HorAlign.LEFT VerAlign.CENTER
           (mkText (mkPoint 10 80) ".tran 1m" (PInt 2) HorAlign.LEFT
              VerAlign.BOTTOM) 2%N (empty_sheet, None)).
  - reflexivity.
  - left. discriminate.
Defined.
